(** * A model of the build script [task2.py]

    The script clones a Git repository into [temp_repo], removes every
    top-level directory except the one that is to be packaged, writes a
    [version.json] manifest into that directory, zips it and moves the
    archive next to the caller.

    The development is organised as follows.
    - [PyStr], [PosixPath]: the string methods and the functions of
      [os.path] the script calls.
    - [FS]: a POSIX directory tree (no symbolic links, no permissions,
      no input or output errors) with path resolution, and the file
      operations of [os], [shutil] and [open] the script calls.
    - [Py]: a state-and-exception monad for the script's control flow,
      with the log as part of the state.
    - [Task2]: the five functions of the script.
    - [Sample], [Cases]: a repository, some current directories and
      some runs on them.
    - Facts about strings, trees, path resolution and each stage, and
      a case analysis of [main].
    - The properties of the script, one by one.
    - Further properties of each stage and of the driver, with the
      facts they rest on. *)

From Stdlib Require Import Ascii.
From stdpp Require Import gmap strings list fin_maps.

#[local] Set Warnings "-register-all".

(** ** Strings as Python uses them *)

Module PyStr.

(** [s.startswith(p)] *)
Fixpoint startswith (s p : string) : bool :=
  match p with
  | EmptyString => true
  | String b p' =>
      match s with
      | EmptyString => false
      | String a s' => Ascii.eqb a b && startswith s' p'
      end
  end.

(** [s.endswith(suf)]: some tail of [s] is [suf]. *)
Fixpoint endswith (s suf : string) : bool :=
  if String.eqb s suf then true
  else match s with
       | EmptyString => false
       | String _ s' => endswith s' suf
       end.

(** [s.endswith((a, b, ...))] with a tuple of suffixes. *)
Definition endswith_any (s : string) (sufs : list string) : bool :=
  existsb (endswith s) sufs.

Definition is_slash (c : ascii) : bool := Ascii.eqb c "/"%char.

(** [s.split('/')]; the result is never empty. *)
Fixpoint split_slash (s : string) : list string :=
  match s with
  | EmptyString => [""]
  | String c s' =>
      if is_slash c then "" :: split_slash s'
      else match split_slash s' with
           | h :: t => String c h :: t
           | [] => [String c ""]
           end
  end.

(** ['/'.join(comps)] *)
Fixpoint join_slash (comps : list string) : string :=
  match comps with
  | [] => ""
  | [c] => c
  | c :: rest => c +:+ "/" +:+ join_slash rest
  end.

(** [(s[:i], s[i:])] for [i = s.rfind('/') + 1]. *)
Fixpoint rpartition_slash (s : string) : string * string :=
  match s with
  | EmptyString => ("", "")
  | String c s' =>
      let '(h, t) := rpartition_slash s' in
      if String.eqb h "" then
        if is_slash c then ("/", t) else ("", String c t)
      else (String c h, t)
  end.

(** [s.rstrip('/')] *)
Fixpoint rstrip_slash (s : string) : string :=
  match s with
  | EmptyString => ""
  | String c s' =>
      let r := rstrip_slash s' in
      if is_slash c && String.eqb r "" then "" else String c r
  end.

(** [s] has no ['/'] in it. *)
Fixpoint no_slash (s : string) : bool :=
  match s with
  | EmptyString => true
  | String c s' => negb (is_slash c) && no_slash s'
  end.

(** [s == '/' * len(s)] *)
Fixpoint all_slash (s : string) : bool :=
  match s with
  | EmptyString => true
  | String c s' => is_slash c && all_slash s'
  end.

End PyStr.

(** ** [os.path] on POSIX ([posixpath.py]) *)

Module PosixPath.
Import PyStr.

(** [os.path.join(a, b)] for two arguments. *)
Definition join (a b : string) : string :=
  if startswith b "/" then b
  else if String.eqb a "" || endswith a "/" then a +:+ b
  else a +:+ "/" +:+ b.

(** [os.path.basename(p)] *)
Definition basename (p : string) : string := snd (rpartition_slash p).

(** [os.path.dirname(p)] *)
Definition dirname (p : string) : string :=
  let head := fst (rpartition_slash p) in
  if negb (String.eqb head "") && negb (all_slash head)
  then rstrip_slash head else head.

(** The loop of [normpath] over the components.  [st] is the list
    [new_comps] of the Python code, kept with its last element first,
    so that [append] is a cons and [pop] drops the head. *)
Fixpoint norm_comps (absolute : bool) (st comps : list string) : list string :=
  match comps with
  | [] => st
  | comp :: rest =>
      if String.eqb comp "" || String.eqb comp "." then norm_comps absolute st rest
      else if negb (String.eqb comp "..")
              || (negb absolute && match st with [] => true | _ => false end)
              || match st with top :: _ => String.eqb top ".." | [] => false end
      then norm_comps absolute (comp :: st) rest
      else norm_comps absolute (tail st) rest
  end.

(** Number of leading slashes [normpath] keeps: two for exactly two,
    one for one or for three and more. *)
Definition initial_slashes (path : string) : nat :=
  if startswith path "/" then
    if startswith path "//" && negb (startswith path "///") then 2 else 1
  else 0.

Fixpoint slashes (n : nat) : string :=
  match n with O => "" | S n' => String "/" (slashes n') end.

(** [os.path.normpath(path)] *)
Definition normpath (path : string) : string :=
  if String.eqb path "" then "."
  else
    let n := initial_slashes path in
    let comps := rev (norm_comps (negb (Nat.eqb n 0)) [] (split_slash path)) in
    let path' := slashes n +:+ join_slash comps in
    if String.eqb path' "" then "." else path'.

End PosixPath.


(** ** The file system *)

Module FS.
Import PyStr PosixPath.

(** The JSON values [json.dump] is given by the script. *)
Inductive json :=
| JStr (s : string)
| JList (items : list json)
| JDict (fields : list (string * json)).

(** A directory tree.  Regular files come in three kinds: files whose
    bytes the script never looks at, files written by [json.dump]
    (kept as the value that was dumped), and zip archives (kept as the
    entries that were archived). *)
Inductive node :=
| File (data : string)
| JsonFile (doc : json)
| ZipFile (members : gmap string node)
| Dir (entries : gmap string node).

Definition is_dir (n : node) : bool :=
  match n with Dir _ => true | _ => false end.

Definition is_file (n : node) : bool := negb (is_dir n).

(** The exceptions the modelled calls raise. *)
Inductive exn :=
| FileNotFoundError
| NotADirectoryError
| IsADirectoryError
| BusyError
| ShutilError
| CalledProcessError.

Inductive res (A : Type) :=
| Ok (a : A)
| Err (e : exn).
Arguments Ok {A} a.
Arguments Err {A} e.

Definition is_ok {A} (r : res A) : bool :=
  match r with Ok _ => true | Err _ => false end.

(** The names a directory can hold: not empty, not [.] or [..], and
    without a slash. *)
Definition valid_name (s : string) : bool :=
  negb (String.eqb s "") && negb (String.eqb s ".")
  && negb (String.eqb s "..") && no_slash s.

Definition names_ok (m : gmap string node) : Prop :=
  map_Forall (λ k _, valid_name k = true) m.

(** A location is the list of names leading from the root of the tree
    to a node, outermost first. *)
Fixpoint get (n : node) (loc : list string) : option node :=
  match loc with
  | [] => Some n
  | c :: loc' =>
      match n with
      | Dir m => m !! c ≫= λ ch, get ch loc'
      | _ => None
      end
  end.

(** [update loc f n] replaces the entry at [loc] by [f] of what is
    there; nothing changes when the directory holding it is missing. *)
Fixpoint update (loc : list string) (f : option node → option node) (n : node) : node :=
  match loc with
  | [] => n
  | c :: loc' =>
      match n with
      | Dir m =>
          Dir (match loc' with
               | [] => partial_alter f c m
               | _ => alter (update loc' f) c m
               end)
      | _ => n
      end
  end.

(** [sub t' t]: the tree [t'] is [t] with some entries of some of its
    directories removed. *)
Inductive sub : node → node → Prop :=
| sub_refl (n : node) : sub n n
| sub_dir (m' m : gmap string node) :
    (∀ k x', m' !! k = Some x' → ∃ x, m !! k = Some x ∧ sub x' x) →
    sub (Dir m') (Dir m).

(** [keeps_dirs t t']: every directory of [t] is still a directory in
    [t']. *)
Definition keeps_dirs (t t' : node) : Prop :=
  ∀ loc m, get t loc = Some (Dir m) → ∃ m', get t' loc = Some (Dir m').

(** [extends t t']: whatever exists in [t] still exists in [t'], and
    what is a directory in [t] is one in [t']. *)
Definition extends (t t' : node) : Prop :=
  ∀ loc x, get t loc = Some x →
    ∃ x', get t' loc = Some x' ∧ (is_dir x = true → is_dir x' = true).

(** One component of a path, resolved at the directory [loc]. *)
Definition step (fs : node) (loc : list string) (c : string) : res (list string) :=
  match get fs loc with
  | Some (Dir m) =>
      if String.eqb c "" || String.eqb c "." then Ok loc
      else if String.eqb c ".." then Ok (removelast loc)
      else match m !! c with
           | Some _ => Ok (loc ++ [c])
           | None => Err FileNotFoundError
           end
  | Some _ => Err NotADirectoryError
  | None => Err FileNotFoundError
  end.

Fixpoint walk (fs : node) (loc : list string) (comps : list string) : res (list string) :=
  match comps with
  | [] => Ok loc
  | c :: rest =>
      match step fs loc c with
      | Ok loc' => walk fs loc' rest
      | Err e => Err e
      end
  end.

Section Process.
(** The directory the process runs in, as a location. *)
Variable cwd : list string.

Definition start (p : string) : list string :=
  if startswith p "/" then [] else cwd.

(** Path resolution: the location a path names. *)
Definition resolve (fs : node) (p : string) : res (list string) :=
  if String.eqb p "" then Err FileNotFoundError
  else walk fs (start p) (split_slash p).

(** [os.stat(p)], reduced to the node found. *)
Definition stat (fs : node) (p : string) : res node :=
  match resolve fs p with
  | Ok loc =>
      match get fs loc with
      | Some n => Ok n
      | None => Err FileNotFoundError
      end
  | Err e => Err e
  end.

(** [os.path.exists(p)] *)
Definition exists_ (fs : node) (p : string) : bool := is_ok (stat fs p).

(** [os.path.isdir(p)] *)
Definition isdir (fs : node) (p : string) : bool :=
  match stat fs p with Ok n => is_dir n | Err _ => false end.

(** [os.path.isfile(p)] *)
Definition isfile (fs : node) (p : string) : bool :=
  match stat fs p with Ok n => is_file n | Err _ => false end.

(** The entries of the directory [p], and [os.listdir(p)]: their
    names, in the order the directory yields them. *)
Definition listing (fs : node) (p : string) : res (gmap string node) :=
  match stat fs p with
  | Ok (Dir m) => Ok m
  | Ok _ => Err NotADirectoryError
  | Err e => Err e
  end.

Definition listdir (fs : node) (p : string) : res (list string) :=
  match listing fs p with
  | Ok m => Ok ((map_to_list m).*1)
  | Err e => Err e
  end.

(** [shutil.rmtree(p)]: [p] must name a directory; it is removed
    with everything below it.  The root cannot be removed. *)
Definition rmtree (fs : node) (p : string) : res node :=
  match resolve fs p with
  | Ok loc =>
      match get fs loc with
      | Some (Dir _) =>
          match loc with
          | [] => Err BusyError
          | _ => Ok (update loc (λ _, None) fs)
          end
      | Some _ => Err NotADirectoryError
      | None => Err FileNotFoundError
      end
  | Err e => Err e
  end.

(** The directory and the name a path splits into when a file is
    created or replaced at it. *)
Definition resolve_parent (fs : node) (p : string) : res (list string * string) :=
  if String.eqb p "" then Err FileNotFoundError
  else
    let comps := split_slash p in
    let name := List.last comps "" in
    match walk fs (start p) (removelast comps) with
    | Ok loc =>
        match get fs loc with
        | Some (Dir _) =>
            if String.eqb name "" || String.eqb name "." || String.eqb name ".."
            then Err IsADirectoryError
            else Ok (loc, name)
        | Some _ => Err NotADirectoryError
        | None => Err FileNotFoundError
        end
    | Err e => Err e
    end.

(** [open(p, 'w')] followed by writing the whole content [n] and
    closing: creates the file or replaces a regular file. *)
Definition write_file (fs : node) (p : string) (n : node) : res node :=
  match resolve_parent fs p with
  | Ok (loc, name) =>
      match get fs (loc ++ [name]) with
      | Some (Dir _) => Err IsADirectoryError
      | _ => Ok (update (loc ++ [name]) (λ _, Some n) fs)
      end
  | Err e => Err e
  end.

(** [os.rename(src, dst)] for a regular file [src]. *)
Definition rename (fs : node) (src dst : string) : res node :=
  match resolve fs src with
  | Ok sloc =>
      match get fs sloc with
      | Some n =>
          match resolve_parent fs dst with
          | Ok (dloc, name) =>
              if decide (sloc = dloc ++ [name]) then Ok fs
              else
                match get fs (dloc ++ [name]) with
                | Some (Dir _) => Err IsADirectoryError
                | _ => Ok (update (dloc ++ [name]) (λ _, Some n)
                             (update sloc (λ _, None) fs))
                end
          | Err e => Err e
          end
      | None => Err FileNotFoundError
      end
  | Err e => Err e
  end.

(** [shutil.move(src, dst)] for a regular file [src]: into [dst]
    when that is a directory, onto [dst] otherwise. *)
Definition move (fs : node) (src dst : string) : res node :=
  if isdir fs dst then
    let real_dst := join dst (basename (rstrip_slash src)) in
    if exists_ fs real_dst then Err ShutilError
    else rename fs src real_dst
  else rename fs src dst.

End Process.

End FS.

(** ** Control flow: state and exceptions *)

Module Py.
Import FS.

Inductive level := INFO | ERROR.

(** What the script logs.  Each constructor stands for one message of
    the source, with the values the message is formatted with. *)
Inductive message :=
| CloneStart (repo_url : string)
| CloneDone
| CloneError (e : exn)
| CleanStart (keep_path : string)
| KeepPathMissing (keep_path : string)
| RemovedDir (item : string)
| CleanDone
| CleanError (e : exn)
| VersionStart (source_dir : string)
| VersionDone (version_data : json)
| VersionError (e : exn)
| ArchiveStart (archive_name source_dir : string)
| ArchiveDone (result_archive_path : string)
| ArchiveError (e : exn)
| BuildDone (final_archive : string).

Record state := State { fs : node; log : list (level * message) }.

(** A computation reads and changes the state and ends with a value
    or with an exception; what it changed before an exception stays
    changed. *)
Definition py (A : Type) : Type := state → res A * state.

Definition ret {A} (a : A) : py A := λ s, (Ok a, s).

Definition bind {A B} (m : py A) (k : A → py B) : py B :=
  λ s, match m s with
       | (Ok a, s') => k a s'
       | (Err e, s') => (Err e, s')
       end.

Definition raise {A} (e : exn) : py A := λ s, (Err e, s).

(** [try: body except Exception as e: handler(e)] *)
Definition try_except {A} (body : py A) (handler : exn → py A) : py A :=
  λ s, match body s with
       | (Ok a, s') => (Ok a, s')
       | (Err e, s') => handler e s'
       end.

(** [try: body except C as e: handler(e)] for the exceptions [catches]
    selects. *)
Definition try_except_of {A} (catches : exn → bool) (body : py A)
    (handler : exn → py A) : py A :=
  try_except body (λ e, if catches e then handler e else raise e).

(** A call that only reads the file system. *)
Definition query {A} (f : node → A) : py A := λ s, (Ok (f (fs s)), s).

(** A call that reads the file system and may raise. *)
Definition query_res {A} (f : node → res A) : py A := λ s, (f (fs s), s).

(** A call that changes the file system or raises. *)
Definition effect (f : node → res node) : py unit :=
  λ s, match f (fs s) with
       | Ok fs' => (Ok tt, State fs' (log s))
       | Err e => (Err e, s)
       end.

(** [logger.info(...)] and [logger.error(...)] *)
Definition logger (l : level) (m : message) : py unit :=
  λ s, (Ok tt, State (fs s) (log s ++ [(l, m)])).

(** [for x in xs: body(x)] *)
Fixpoint for_each {A} (xs : list A) (body : A → py unit) : py unit :=
  match xs with
  | [] => ret tt
  | x :: xs' => bind (body x) (λ _, for_each xs' body)
  end.

(** The monad, for the notations [x ← m; k] and [m;; k]. *)
#[export] Instance py_ret : MRet py := @ret.
#[export] Instance py_bind : MBind py := λ A B k m, bind m k.

End Py.

(** ** The script *)

Module Task2.
Import PyStr PosixPath FS Py.

Local Open Scope Z_scope.

(** A calendar date, as [datetime.datetime.now()] gives it. *)
Record date := Date { year : Z; month : Z; day : Z }.

Definition digit (d : Z) : ascii := ascii_of_nat (Z.to_nat (48 + d)).

(** Decimal digits of [n], most significant first, no padding. *)
Fixpoint decimal (fuel : nat) (n : Z) : string :=
  match fuel with
  | O => String (digit (n mod 10)) ""
  | S fuel' =>
      if (n <? 10)%Z then String (digit n) ""
      else decimal fuel' (n / 10) +:+ String (digit (n mod 10)) ""
  end.

(** Two digits, zero-padded ([%m] and [%d]). *)
Definition two_digits (n : Z) : string :=
  String (digit (n / 10 mod 10)) (String (digit (n mod 10)) "").

(** [d.strftime("%Y%m%d")] *)
Definition strftime_Ymd (d : date) : string :=
  decimal (Z.to_nat (year d)) (year d)
  +:+ two_digits (month d) +:+ two_digits (day d).


(** The points at which [main] returns. *)
Inductive return_point :=
| ReturnCloneFailed
| ReturnCleanFailed
| ReturnVersionFailed
| ReturnArchiveFailed
| ReturnEnd.

Section Run.
(** The directory the script is started in. *)
Variable cwd : list string.
(** What [git clone] fetches from a URL: the content of the working
    copy, or nothing when [git] exits with a non-zero status.  That
    [git] cannot be started at all is outside the model, like every
    other failure of the machine. *)
Variable git : string → option (gmap string node).
(** The local date at the time of the run. *)
Variable now : date.

(** [subprocess.run(['git', 'clone', repo_url, dir], check=True)]:
    [git] clones into a directory that does not exist yet or is
    empty, and exits with a non-zero status otherwise. *)
Definition git_clone (repo_url dir : string) (t : node) : res node :=
  match git repo_url with
  | Some tree =>
      match resolve_parent cwd t dir with
      | Ok (loc, name) =>
          match get t (loc ++ [name]) with
          | None => Ok (update (loc ++ [name]) (λ _, Some (Dir tree)) t)
          | Some (Dir m) =>
              if decide (m = ∅)
              then Ok (update (loc ++ [name]) (λ _, Some (Dir tree)) t)
              else Err CalledProcessError
          | Some _ => Err CalledProcessError
          end
      | Err _ => Err CalledProcessError
      end
  | None => Err CalledProcessError
  end.

(** [shutil.make_archive(base_name, 'zip', root_dir)].  The archive
    file [base_name + '.zip'] is opened for writing first and
    [root_dir] is walked afterwards: an archive that lies in
    [root_dir] becomes a member of itself, in the state it has when
    it is read, which the model takes to be the archive just
    opened.  The library creates the directory of [base_name] when
    it is missing; the model raises there instead, which
    [create_archive] never meets: the directory it names exists
    whenever the directory to archive does (lemma
    [create_archive_directory] below).  The library
    returns the path of the archive as it was built or made absolute,
    depending on its version; the model returns it as it was built,
    and [main] uses its last component and the file it names only. *)
Definition make_archive (base_name root_dir : string) : py string :=
  let zip_filename := base_name +:+ ".zip" in
  root ← query_res (λ t, stat cwd t root_dir);
  if negb (is_dir root) then raise NotADirectoryError
  else
    effect (λ t, write_file cwd t zip_filename (ZipFile ∅));;
    members ← query_res (λ t, listing cwd t root_dir);
    effect (λ t, write_file cwd t zip_filename (ZipFile members));;
    mret zip_filename.

Definition is_called_process_error (e : exn) : bool :=
  match e with CalledProcessError => true | _ => false end.

Definition clone_repository (repo_url temp_dir : string) : py bool :=
  logger INFO (CloneStart repo_url);;
  try_except_of is_called_process_error
    (effect (git_clone repo_url temp_dir);;
     logger INFO CloneDone;;
     mret true)
    (λ e, logger ERROR (CloneError e);; mret false).

(** The body of the loop of [clean_directory], for one entry of the
    root. *)
Definition clean_item (root_dir full_keep_path item : string) : py unit :=
  let item_path := join root_dir item in
  if String.eqb item ".git"
     || String.eqb item_path full_keep_path
     || String.eqb item_path (dirname full_keep_path)
  then mret tt
  else
    d ← query (λ t, isdir cwd t item_path);
    if (d : bool) then
      effect (λ t, rmtree cwd t item_path);;
      logger INFO (RemovedDir item)
    else mret tt.

Definition clean_directory (root_dir keep_path : string) : py bool :=
  logger INFO (CleanStart keep_path);;
  try_except
    (let keep_path := normpath keep_path in
     let full_keep_path := join root_dir keep_path in
     found ← query (λ t, exists_ cwd t full_keep_path);
     if negb found then
       logger ERROR (KeepPathMissing keep_path);;
       mret false
     else
       items ← query_res (λ t, listdir cwd t root_dir);
       for_each items (clean_item root_dir full_keep_path);;
       logger INFO CleanDone;;
       mret true)
    (λ e, logger ERROR (CleanError e);; mret false).

Definition allowed_extensions : list string := [".py"; ".js"; ".sh"].

(** The dictionary written to [version.json]. *)
Definition version_data (version : string) (files : list string) : json :=
  JDict [("name", JStr "hello world");
         ("version", JStr version);
         ("files", JList (JStr <$> files))].

Definition create_version_file (source_dir version : string) : py bool :=
  logger INFO (VersionStart source_dir);;
  try_except
    (names ← query_res (λ t, listdir cwd t source_dir);
     files ← query (λ t,
       filter (λ f, isfile cwd t (join source_dir f)
                    && endswith_any f allowed_extensions) names);
     let version_data := version_data version files in
     let version_file_path := join source_dir "version.json" in
     effect (λ t, write_file cwd t version_file_path (JsonFile version_data));;
     logger INFO (VersionDone version_data);;
     mret true)
    (λ e, logger ERROR (VersionError e);; mret false).

Definition create_archive (source_dir : string) : py string :=
  try_except
    (let last_dir := basename (normpath source_dir) in
     let today := strftime_Ymd now in
     let archive_name := last_dir +:+ today in
     let parent_dir := dirname source_dir in
     let archive_path := join parent_dir archive_name in
     logger INFO (ArchiveStart archive_name source_dir);;
     result_archive_path ← make_archive archive_path source_dir;
     logger INFO (ArchiveDone result_archive_path);;
     mret result_archive_path)
    (λ e, logger ERROR (ArchiveError e);; mret "").

(** [main()], given the three positional arguments. *)
Definition main (repository_url source_path version : string) : py return_point :=
  let temp_dir := "temp_repo" in
  stale ← query (λ t, exists_ cwd t temp_dir);
  (if (stale : bool) then effect (λ t, rmtree cwd t temp_dir) else mret tt);;
  cloned ← clone_repository repository_url temp_dir;
  if negb cloned then mret ReturnCloneFailed
  else
    cleaned ← clean_directory temp_dir source_path;
    if negb cleaned then
      effect (λ t, rmtree cwd t temp_dir);;
      mret ReturnCleanFailed
    else
      let source_dir := join temp_dir source_path in
      stamped ← create_version_file source_dir version;
      if negb stamped then
        effect (λ t, rmtree cwd t temp_dir);;
        mret ReturnVersionFailed
      else
        archive_path ← create_archive source_dir;
        if String.eqb archive_path "" then
          effect (λ t, rmtree cwd t temp_dir);;
          mret ReturnArchiveFailed
        else
          let final_archive := basename archive_path in
          effect (λ t, move cwd t archive_path final_archive);;
          effect (λ t, rmtree cwd t temp_dir);;
          logger INFO (BuildDone final_archive);;
          mret ReturnEnd.


End Run.

(** What the loop of [clean_directory] skips at the root, and the
    entries of the root it leaves: the skipped ones and those that are
    not directories. *)
Definition protected (root_dir keep_path item : string) : bool :=
  let full_keep_path := join root_dir (normpath keep_path) in
  String.eqb item ".git"
  || String.eqb (join root_dir item) full_keep_path
  || String.eqb (join root_dir item) (dirname full_keep_path).

Definition survives (root_dir keep_path : string) (entry : string * node) : bool :=
  protected root_dir keep_path entry.1 || negb (is_dir entry.2).

Definition pruned (root_dir keep_path : string) (m : gmap string node) :
    gmap string node :=
  filter (λ entry, survives root_dir keep_path entry = true) m.

(** The effect of one turn of the loop on the entries of the root. *)
Definition prune_step (root_dir keep_path : string) (m : gmap string node)
    (item : string) : gmap string node :=
  if protected root_dir keep_path item then m
  else match m !! item with
       | Some (Dir _) => delete item m
       | _ => m
       end.

End Task2.


(** ** A sample run *)

Module Sample.
Import FS Py Task2.

(** A repository with a one-level, a two-level and a three-level
    directory to package. *)
Definition repo : gmap string node :=
  {[ ".git" := Dir {[ "HEAD" := File "ref: refs/heads/main" ]};
     "README" := File "readme";
     "docs" := Dir {[ "guide.md" := File "guide" ]};
     "app" := Dir {[ "main.py" := File "print()";
                     ".py" := File "";
                     "tool.js" := File "js";
                     "NOTES.PY" := File "upper";
                     "data.json" := File "{}";
                     "lib" := Dir {[ "util.py" := File "u" ]} ]};
     "src" := Dir {[ "app" := Dir {[ "run.sh" := File "sh" ]};
                     "other" := Dir ∅ ]};
     "a" := Dir {[ "b" := Dir {[ "c" := Dir {[ "f.js" := File "j" ]} ]} ]} ]}.

Definition url : string := "https://example.org/repo.git".

Definition git (u : string) : option (gmap string node) :=
  if String.eqb u url then Some repo else None.

Definition today : date := Date 2024 3 7.

Definition cwd : list string := ["home"].

Definition disk : node := Dir {[ "home" := Dir ∅ ]}.

Definition initial : state := State disk [].

(** The state once the repository is cloned into [temp_repo]. *)
Definition cloned : state :=
  snd (clone_repository cwd git url "temp_repo" initial).

(** The entries of the directory [app] of the repository. *)
Definition app_entries : gmap string node :=
  match repo !! "app" with Some (Dir m) => m | _ => ∅ end.

(** The state once [temp_repo/app] is stamped with version 1.0. *)
Definition stamped : state :=
  snd (create_version_file cwd "temp_repo/app" "1.0" cloned).

(** The state after one prune pass that is to keep [a/b/c], and after
    a second one. *)
Definition pruned_deep_once : res bool * state :=
  clean_directory cwd "temp_repo" "a/b/c" cloned.

Definition pruned_deep_twice : res bool * state :=
  clean_directory cwd "temp_repo" "a/b/c" (snd pruned_deep_once).


(** The run that is to package [README], a regular file. *)
Definition run_readme : res return_point * state :=
  main cwd git today url "README" "1.0" initial.

(** The runs that package [app], given as [app] and as [app/]. *)
Definition run_app : res return_point * state :=
  main cwd git today url "app" "1.0" initial.

Definition run_app_slash : res return_point * state :=
  main cwd git today url "app/" "1.0" initial.


End Sample.

(** ** Further sample states *)

Module Cases.
Import FS Py Task2.

(** A current directory in which an earlier run left [temp_repo]
    behind. *)
Definition leftover : gmap string node := {[ "old.txt" := File "old" ]}.

Definition leftover_entries : gmap string node :=
  {[ "temp_repo" := Dir leftover; "notes.txt" := File "notes" ]}.

Definition leftover_disk : node := Dir {[ "home" := Dir leftover_entries ]}.

(** A current directory in which [temp_repo] is a regular file. *)
Definition blocked_entries : gmap string node :=
  {[ "temp_repo" := File "junk" ]}.

Definition blocked_disk : node := Dir {[ "home" := Dir blocked_entries ]}.


(** The clone after a prune pass that is to keep [src/app]. *)
Definition pruned_src_app : res bool * state :=
  clean_directory Sample.cwd "temp_repo" "src/app" Sample.cloned.

(** The entries of [src/app] in the repository, and those of [app]
    once it is stamped. *)
Definition src_app_entries : gmap string node := {[ "run.sh" := File "sh" ]}.




End Cases.

(** * Properties *)

(** ** The path functions on sample inputs *)

Module PosixPathTests.
Import PosixPath.

Example normpath_samples :
  map normpath [""; "."; "a/b/"; "a//b"; "/a/../.."; "//a"; "///a"; "../a";
                "a/../../b"; "a/./b/.."; "/"; "//"; "a/.."; "src/app"]
  = ["."; "."; "a/b"; "a/b"; "/"; "//a"; "/a"; "../a";
     "../b"; "a"; "/"; "//"; "."; "src/app"].
Proof. reflexivity. Qed.

Example dirname_samples :
  map dirname [""; "."; "a/b/"; "a//b"; "/a/../.."; "//a"; "///a"; "../a"; "/"; "a/.."]
  = [""; ""; "a/b"; "a"; "/a/.."; "//"; "///"; ".."; "/"; "a"].
Proof. reflexivity. Qed.

Example basename_samples :
  map basename [""; "."; "a/b/"; "a//b"; "/a/../.."; "//a"; "../a"; "/"; "a/.."]
  = [""; "."; ""; "b"; ".."; "a"; "a"; ""; ".."].
Proof. reflexivity. Qed.

Example join_samples :
  map (join "temp_repo") [""; "."; "a/b/"; "/a/../.."; "//a"; "../a"]
  = ["temp_repo/"; "temp_repo/."; "temp_repo/a/b/"; "/a/../.."; "//a"; "temp_repo/../a"].
Proof. reflexivity. Qed.

Example endswith_samples :
  map (fun s => PyStr.endswith_any s [".py"; ".js"; ".sh"]) [".py"; "a.PY"; "a.py"; "py"; "a.pyc"; "x.sh"]
  = [true; false; true; false; false; true].
Proof. reflexivity. Qed.

End PosixPathTests.

(** ** Facts about strings *)

Module StrFacts.
Import PyStr PosixPath FS.

Lemma append_cons (c : ascii) (s t : string) : String c s +:+ t = String c (s +:+ t).
Proof. reflexivity. Qed.

Lemma append_nil_l (s : string) : "" +:+ s = s.
Proof. reflexivity. Qed.

Lemma append_nil_r (s : string) : s +:+ "" = s.
Proof. induction s as [|c s IH]; [done | by rewrite append_cons, IH]. Qed.

Lemma append_assoc (a b c : string) : (a +:+ b) +:+ c = a +:+ (b +:+ c).
Proof. induction a as [|x a IH]; [done | by rewrite !append_cons, IH]. Qed.

Lemma endswith_unfold (s suf : string) :
  endswith s suf =
  if String.eqb s suf then true
  else match s with EmptyString => false | String _ s' => endswith s' suf end.
Proof. by destruct s. Qed.

Lemma endswith_refl (s : string) : endswith s s = true.
Proof. by rewrite endswith_unfold, String.eqb_refl. Qed.

Lemma endswith_spec (s suf : string) :
  endswith s suf = true ↔ ∃ pre, s = pre +:+ suf.
Proof.
  split.
  - induction s as [|c s IH]; rewrite endswith_unfold;
      destruct (String.eqb _ suf) eqn:E.
    + apply String.eqb_eq in E. subst. intros _. by exists "".
    + done.
    + apply String.eqb_eq in E. subst. intros _. by exists "".
    + intros [pre ->]%IH. by exists (String c pre).
  - intros [pre ->]. induction pre as [|c pre IH].
    + apply endswith_refl.
    + rewrite append_cons, endswith_unfold.
      destruct (String.eqb _ suf); [done | apply IH].
Qed.

Lemma split_slash_nonempty (s : string) : split_slash s ≠ [].
Proof.
  induction s as [|c s IH]; simpl; [done|].
  destruct (is_slash c); [done|]. by destruct (split_slash s).
Qed.

Lemma split_slash_no_slash (s : string) : no_slash s = true → split_slash s = [s].
Proof.
  induction s as [|c s IH]; simpl; [done|].
  intros [Hc Hs]%andb_true_iff. apply negb_true_iff in Hc.
  by rewrite Hc, IH.
Qed.

Lemma split_slash_app (a b : string) :
  split_slash (a +:+ "/" +:+ b) = split_slash a ++ split_slash b.
Proof.
  induction a as [|c a IH]; [done|].
  rewrite append_cons. simpl. rewrite IH. destruct (is_slash c); [done|].
  pose proof (split_slash_nonempty a). by destruct (split_slash a).
Qed.

Lemma split_slash_snoc (a : string) : split_slash (a +:+ "/") = split_slash a ++ [""].
Proof. exact (split_slash_app a ""). Qed.

Lemma valid_name_no_slash (s : string) : valid_name s = true → no_slash s = true.
Proof. unfold valid_name. by intros [_ ?]%andb_true_iff. Qed.

Lemma valid_name_not_special (s : string) :
  valid_name s = true → String.eqb s "" || String.eqb s "." = false ∧ String.eqb s ".." = false.
Proof.
  unfold valid_name. intros [[[H1 H2]%andb_true_iff H3]%andb_true_iff _]%andb_true_iff.
  apply negb_true_iff in H1, H2, H3. by rewrite H1, H2, H3.
Qed.

Lemma startswith_slash (s : string) :
  startswith s "/" = match s with String c _ => is_slash c | EmptyString => false end.
Proof. destruct s as [|c s]; [done|]. cbn [startswith]. by destruct s; rewrite andb_true_r. Qed.

Lemma valid_name_startswith (s : string) : valid_name s = true → startswith s "/" = false.
Proof.
  intros H. pose proof (valid_name_no_slash _ H) as Hs.
  rewrite startswith_slash. destruct s as [|c s]; [done|]. simpl in Hs.
  apply andb_true_iff in Hs as [Hc _]. by apply negb_true_iff in Hc.
Qed.

Lemma startswith_app (a b : string) : a ≠ "" → startswith (a +:+ b) "/" = startswith a "/".
Proof. destruct a as [|c a]; [done|]. intros _. by rewrite append_cons, !startswith_slash. Qed.

Lemma app_eq_nil (a b : string) : a +:+ b = "" → a = "".
Proof. by destruct a. Qed.

End StrFacts.

(** ** Facts about the tree *)

Module TreeFacts.
Import FS.

Lemma get_app (n : node) (l1 l2 : list string) :
  get n (l1 ++ l2) = get n l1 ≫= λ x, get x l2.
Proof.
  revert n. induction l1 as [|c l1 IH]; intros n; simpl; [done|].
  destruct n as [| | |m]; try done.
  destruct (m !! c); simpl; [apply IH | done].
Qed.

Lemma get_snoc (n : node) (loc : list string) (k : string) (m : gmap string node) :
  get n loc = Some (Dir m) → get n (loc ++ [k]) = m !! k.
Proof. intros H. rewrite get_app, H. simpl. by destruct (m !! k). Qed.

Lemma get_snoc_Some (n x : node) (loc : list string) (k : string) :
  get n (loc ++ [k]) = Some x → ∃ m, get n loc = Some (Dir m) ∧ m !! k = Some x.
Proof.
  rewrite get_app. destruct (get n loc) as [[| | |m]|]; simpl; try done.
  intros H. exists m. split; [done|]. by destruct (m !! k).
Qed.

Lemma update_cons_cons (c c' : string) (loc : list string) f (m : gmap string node) :
  update (c :: c' :: loc) f (Dir m) = Dir (alter (update (c' :: loc) f) c m).
Proof. reflexivity. Qed.

Lemma update_cons_snoc (c k : string) (loc : list string) f (m : gmap string node) :
  update (c :: loc ++ [k]) f (Dir m) = Dir (alter (update (loc ++ [k]) f) c m).
Proof. destruct loc; reflexivity. Qed.

Lemma get_update_child (n : node) (loc : list string) (k : string) f (m : gmap string node) :
  get n loc = Some (Dir m) →
  get (update (loc ++ [k]) f n) loc = Some (Dir (partial_alter f k m)).
Proof.
  revert n. induction loc as [|c loc IH]; intros n H.
  - simpl in H. by simplify_eq.
  - destruct n as [| | |m0]; try done. simpl in H.
    destruct (m0 !! c) as [ch|] eqn:Hc; [|done]. simpl in H.
    change ((c :: loc) ++ [k]) with (c :: loc ++ [k]).
    rewrite update_cons_snoc. simpl.
    rewrite lookup_alter_eq, Hc. simpl. by apply IH.
Qed.

Lemma get_update_same (n : node) (loc : list string) (k : string) f (m : gmap string node) :
  get n loc = Some (Dir m) →
  get (update (loc ++ [k]) f n) (loc ++ [k]) = f (m !! k).
Proof.
  intros H. rewrite (get_snoc _ _ _ _ (get_update_child _ _ _ f _ H)).
  apply lookup_partial_alter_eq.
Qed.

Lemma update_child_as_parent (n : node) (loc : list string) (k : string) f (m : gmap string node) :
  loc ≠ [] → get n loc = Some (Dir m) →
  update (loc ++ [k]) f n = update loc (λ _, Some (Dir (partial_alter f k m))) n.
Proof.
  revert n. induction loc as [|c loc IH]; intros n Hne H; [done|].
  destruct n as [| | |m0]; try done. simpl in H.
  destruct (m0 !! c) as [ch|] eqn:Hc; [|done]. simpl in H.
  change ((c :: loc) ++ [k]) with (c :: loc ++ [k]). rewrite update_cons_snoc.
  destruct loc as [|c' loc].
  - simpl in H. simplify_eq. simpl. f_equal.
    apply map_eq. intros j. destruct (decide (c = j)) as [<-|Hj].
    + by rewrite lookup_alter_eq, lookup_partial_alter_eq, Hc.
    + by rewrite lookup_alter_ne, lookup_partial_alter_ne.
  - rewrite update_cons_cons. f_equal. apply alter_ext.
    intros x Hx. simplify_eq. by apply IH.
Qed.

Lemma update_update_same (n x y : node) (loc : list string) :
  update loc (λ _, Some y) (update loc (λ _, Some x) n) = update loc (λ _, Some y) n.
Proof.
  revert n. induction loc as [|c loc IH]; intros n; [done|].
  destruct n as [| | |m0]; try done.
  destruct loc as [|c' loc].
  - simpl. f_equal. by rewrite partial_alter_partial_alter_eq.
  - rewrite !update_cons_cons. f_equal. rewrite alter_alter_eq.
    apply alter_ext. intros z _. apply IH.
Qed.

Lemma update_delete_after (n x : node) (loc : list string) :
  update loc (λ _, None) (update loc (λ _, Some x) n) = update loc (λ _, None) n.
Proof.
  revert n. induction loc as [|c loc IH]; intros n; [done|].
  destruct n as [| | |m0]; try done.
  destruct loc as [|c' loc].
  - simpl. f_equal. by rewrite partial_alter_partial_alter_eq.
  - rewrite !update_cons_cons. f_equal. rewrite alter_alter_eq.
    apply alter_ext. intros z _. apply IH.
Qed.

End TreeFacts.

(** ** Facts about path resolution *)

Module ResolveFacts.
Import PyStr PosixPath FS StrFacts TreeFacts.

Lemma walk_app (t : node) (loc : list string) (a b : list string) :
  walk t loc (a ++ b) =
  match walk t loc a with Ok l => walk t l b | Err e => Err e end.
Proof.
  revert loc. induction a as [|c a IH]; intros loc; simpl; [done|].
  destruct (step t loc c); [apply IH | done].
Qed.

Lemma step_name (t : node) (loc : list string) (k : string) (m : gmap string node) :
  get t loc = Some (Dir m) → valid_name k = true →
  step t loc k =
  match m !! k with Some _ => Ok (loc ++ [k]) | None => Err FileNotFoundError end.
Proof.
  intros H Hk. unfold step. rewrite H.
  destruct (valid_name_not_special _ Hk) as [-> ->]. done.
Qed.

Lemma step_empty_inv (t : node) (loc l : list string) :
  step t loc "" = Ok l → l = loc ∧ ∃ m, get t loc = Some (Dir m).
Proof.
  unfold step. destruct (get t loc) as [[| | |m]|]; try done.
  simpl. intros [= <-]. eauto.
Qed.

Lemma walk_singleton (t : node) (loc : list string) (k : string) :
  walk t loc [k] = step t loc k.
Proof. simpl. by destruct (step t loc k). Qed.

Lemma resolve_nonempty cwd (t : node) (p : string) (loc : list string) :
  resolve cwd t p = Ok loc → p ≠ "".
Proof. unfold resolve. by intros H ->. Qed.

Lemma resolve_unfold cwd (t : node) (p : string) :
  p ≠ "" → resolve cwd t p = walk t (start cwd p) (split_slash p).
Proof. intros H. unfold resolve. apply String.eqb_neq in H. by rewrite H. Qed.

Lemma start_app cwd (a b : string) : a ≠ "" → start cwd (a +:+ b) = start cwd a.
Proof. intros H. unfold start. by rewrite startswith_app. Qed.

(** An entry of a directory, named through [os.path.join]. *)
Lemma resolve_join_child cwd (t : node) (sd f : string) (loc : list string)
    (m : gmap string node) :
  resolve cwd t sd = Ok loc → get t loc = Some (Dir m) → valid_name f = true →
  resolve cwd t (join sd f) = step t loc f.
Proof.
  intros Hr Hg Hf. pose proof (resolve_nonempty _ _ _ _ Hr) as Hne.
  rewrite resolve_unfold in Hr by done.
  unfold join. rewrite (valid_name_startswith _ Hf).
  apply String.eqb_neq in Hne as Hne'. rewrite Hne'. simpl.
  destruct (endswith sd "/") eqn:He.
  - apply endswith_spec in He as [pre ->].
    rewrite split_slash_snoc, walk_app in Hr.
    destruct (walk t (start cwd (pre +:+ "/")) (split_slash pre)) as [l1|] eqn:Hw; [|done].
    rewrite walk_singleton in Hr. apply step_empty_inv in Hr as [-> _].
    rewrite resolve_unfold.
    2:{ intros E. by apply app_eq_nil in E. }
    rewrite start_app by done. rewrite append_assoc.
    rewrite split_slash_app, walk_app, Hw.
    rewrite (split_slash_no_slash f) by by apply valid_name_no_slash.
    apply walk_singleton.
  - rewrite resolve_unfold.
    2:{ intros E. by apply app_eq_nil in E. }
    rewrite start_app by done.
    rewrite split_slash_app, walk_app, Hr.
    rewrite (split_slash_no_slash f) by by apply valid_name_no_slash.
    apply walk_singleton.
Qed.

Lemma listing_inv cwd (t : node) (p : string) (m : gmap string node) :
  listing cwd t p = Ok m →
  ∃ loc, resolve cwd t p = Ok loc ∧ get t loc = Some (Dir m).
Proof.
  unfold listing, stat. destruct (resolve cwd t p) as [loc|]; [|done].
  destruct (get t loc) as [[| | |m']|] eqn:Hg; try done.
  intros [= ->]. eauto.
Qed.

Lemma stat_join_child cwd (t : node) (sd f : string) (m : gmap string node) :
  listing cwd t sd = Ok m → valid_name f = true →
  stat cwd t (join sd f) =
  match m !! f with Some n => Ok n | None => Err FileNotFoundError end.
Proof.
  intros (loc & Hr & Hg)%listing_inv Hf. unfold stat.
  rewrite (resolve_join_child _ _ _ _ _ _ Hr Hg Hf), (step_name _ _ _ _ Hg Hf).
  destruct (m !! f) as [n|] eqn:Hm; [|done].
  by rewrite (get_snoc _ _ _ _ Hg), Hm.
Qed.

End ResolveFacts.

(** ** The stamp stage *)

Module StampFacts.
Import PyStr PosixPath FS Py Task2 StrFacts TreeFacts ResolveFacts.

Lemma resolve_parent_join_child cwd (t : node) (sd f : string) (loc : list string)
    (m : gmap string node) :
  resolve cwd t sd = Ok loc → get t loc = Some (Dir m) → valid_name f = true →
  resolve_parent cwd t (join sd f) = Ok (loc, f).
Proof.
  intros Hr Hg Hf. pose proof (resolve_nonempty _ _ _ _ Hr) as Hne.
  rewrite resolve_unfold in Hr by done.
  assert (∃ pre, join sd f = pre +:+ "/" +:+ f ∧ start cwd (join sd f) = start cwd sd
                 ∧ walk t (start cwd sd) (split_slash pre) = Ok loc) as (pre & Hj & Hs & Hw).
  { unfold join. rewrite (valid_name_startswith _ Hf).
    apply String.eqb_neq in Hne as Hne'. rewrite Hne'. simpl.
    destruct (endswith sd "/") eqn:He.
    - apply endswith_spec in He as [pre ->]. exists pre.
      rewrite start_app by done. rewrite append_assoc. split_and!; [done..|].
      rewrite split_slash_snoc, walk_app in Hr.
      destruct (walk t _ (split_slash pre)) as [l1|] eqn:Hw; [|done].
      rewrite walk_singleton in Hr. by apply step_empty_inv in Hr as [-> _].
    - exists sd. rewrite start_app by done. by split_and!. }
  unfold resolve_parent. rewrite Hs, Hj.
  destruct (String.eqb (pre +:+ "/" +:+ f) "") eqn:E.
  { apply String.eqb_eq in E. by destruct pre. }
  rewrite split_slash_app, (split_slash_no_slash f) by by apply valid_name_no_slash.
  rewrite removelast_last, last_last, Hw, Hg.
  destruct (valid_name_not_special _ Hf) as [-> ->]. done.
Qed.


Lemma elem_of_listdir (m : gmap string node) (f : string) :
  f ∈ (map_to_list m).*1 ↔ is_Some (m !! f).
Proof.
  rewrite list_elem_of_fmap. split.
  - intros ([k n] & -> & H%elem_of_map_to_list). eauto.
  - intros [n H]. exists (f, n). by rewrite elem_of_map_to_list.
Qed.

Ltac py_unfold :=
  unfold mbind, py_bind, bind, mret, py_ret, ret, try_except_of, try_except,
    logger, query, query_res, effect, raise in *.


End StampFacts.

(** ** The prune stage *)

Module PruneFacts.
Import PyStr PosixPath FS Py Task2 StrFacts TreeFacts ResolveFacts StampFacts.

Lemma update_id (n x : node) (loc : list string) :
  get n loc = Some x → update loc (λ _, Some x) n = n.
Proof.
  revert n. induction loc as [|c loc IH]; intros n H; [done|].
  destruct n as [| | |m0]; try done. simpl in H.
  destruct (m0 !! c) as [ch|] eqn:Hc; [|done]. simpl in H.
  destruct loc as [|c' loc].
  - simpl in H. simplify_eq. simpl. f_equal. apply partial_alter_id. by rewrite Hc.
  - rewrite update_cons_cons. f_equal.
    apply map_eq. intros j. destruct (decide (c = j)) as [<-|Hj].
    + rewrite lookup_alter_eq, Hc. simpl. f_equal. by apply IH.
    + by rewrite lookup_alter_ne.
Qed.

Lemma get_update_here (n x : node) (loc : list string) :
  loc ≠ [] → is_Some (get n loc) → get (update loc (λ _, Some x) n) loc = Some x.
Proof.
  intros Hne [y Hy].
  destruct (exists_last Hne) as (l & k & ->).
  apply get_snoc_Some in Hy as (m & Hm & _).
  by rewrite (get_update_same _ _ _ _ _ Hm).
Qed.

(** The root directory, named by a single valid name. *)
Lemma resolve_name cwd (t : node) (r : string) (x : node) :
  valid_name r = true → get t (cwd ++ [r]) = Some x →
  resolve cwd t r = Ok (cwd ++ [r]).
Proof.
  intros Hr Hx. apply get_snoc_Some in Hx as (mc & Hc & Hm).
  rewrite resolve_unfold by (intros ->; done).
  unfold start. rewrite (valid_name_startswith _ Hr).
  rewrite (split_slash_no_slash r) by by apply valid_name_no_slash.
  by rewrite walk_singleton, (step_name _ _ _ _ Hc Hr), Hm.
Qed.

Lemma listing_name cwd (t : node) (r : string) (m : gmap string node) :
  valid_name r = true → get t (cwd ++ [r]) = Some (Dir m) →
  listing cwd t r = Ok m.
Proof.
  intros Hr Hm. unfold listing, stat.
  by rewrite (resolve_name _ _ _ _ Hr Hm), Hm.
Qed.

Lemma prune_step_lookup_ne (r keep : string) (m : gmap string node) (k j : string) :
  k ≠ j → prune_step r keep m k !! j = m !! j.
Proof.
  intros H. unfold prune_step. destruct (protected r keep k); [done|].
  destruct (m !! k) as [[| | |?]|]; try done. by rewrite lookup_delete_ne.
Qed.

Lemma prune_step_lookup_eq (r keep : string) (m : gmap string node) (k : string) :
  prune_step r keep m k !! k =
  match m !! k with
  | Some n => if survives r keep (k, n) then Some n else None
  | None => None
  end.
Proof.
  unfold prune_step, survives. simpl. destruct (protected r keep k); simpl.
  - by destruct (m !! k).
  - destruct (m !! k) as [[| | |?]|] eqn:E; simpl; try done.
    by rewrite lookup_delete_eq.
Qed.

Lemma prune_fold_lookup (r keep : string) (items : list string)
    (m : gmap string node) (j : string) :
  NoDup items →
  foldl (prune_step r keep) m items !! j =
  if decide (j ∈ items) then
    match m !! j with
    | Some n => if survives r keep (j, n) then Some n else None
    | None => None
    end
  else m !! j.
Proof.
  revert m. induction items as [|k items IH]; intros m Hnd.
  - cbn [foldl]. by rewrite decide_False by apply not_elem_of_nil.
  - apply NoDup_cons in Hnd as [Hk Hnd]. cbn [foldl]. rewrite IH by done.
    destruct (decide (j = k)) as [->|Hj].
    + rewrite decide_False by done. rewrite decide_True by apply list_elem_of_here.
      apply prune_step_lookup_eq.
    + rewrite prune_step_lookup_ne by done.
      destruct (decide (j ∈ items)) as [Hin|Hin].
      * by rewrite decide_True by by apply list_elem_of_further.
      * rewrite decide_False; [done|]. by intros [?|?]%elem_of_cons.
Qed.

Lemma prune_fold_pruned (r keep : string) (m : gmap string node) :
  foldl (prune_step r keep) m (map_to_list m).*1 = pruned r keep m.
Proof.
  apply map_eq. intros j.
  rewrite prune_fold_lookup by apply NoDup_fst_map_to_list.
  unfold pruned. destruct (m !! j) as [n|] eqn:Hj.
  - rewrite decide_True by (apply elem_of_listdir; eauto).
    destruct (survives r keep (j, n)) eqn:Hs.
    + symmetry. by apply map_lookup_filter_Some.
    + symmetry. apply map_lookup_filter_None. right. intros n' Hn'. simplify_eq.
      by rewrite Hs.
  - rewrite decide_False.
    2:{ rewrite elem_of_listdir, Hj. by intros [? ?]. }
    symmetry. apply map_lookup_filter_None. by left.
Qed.

Lemma snoc_not_nil {A} (l : list A) (x : A) : l ++ [x] ≠ [].
Proof. by destruct l. Qed.

Section Root.
Context (cwd : list string) (r keep : string).
Hypothesis Hr : valid_name r = true.

Local Abbreviation loc := (cwd ++ [r]).

Lemma isdir_child (t : node) (k : string) (m : gmap string node) :
  valid_name k = true → get t loc = Some (Dir m) →
  isdir cwd t (join r k) = match m !! k with Some n => is_dir n | None => false end.
Proof.
  intros Hk Hm. unfold isdir.
  rewrite (stat_join_child _ _ _ _ _ (listing_name _ _ _ _ Hr Hm) Hk).
  by destruct (m !! k).
Qed.

Lemma rmtree_child (t : node) (k : string) (m sub : gmap string node) :
  valid_name k = true → get t loc = Some (Dir m) → m !! k = Some (Dir sub) →
  rmtree cwd t (join r k) = Ok (update loc (λ _, Some (Dir (delete k m))) t).
Proof.
  intros Hk Hm Hsub. unfold rmtree.
  rewrite (resolve_join_child _ _ _ _ _ _ (resolve_name _ _ _ _ Hr Hm) Hm Hk).
  rewrite (step_name _ _ _ _ Hm Hk), Hsub.
  rewrite (get_snoc _ _ _ _ Hm), Hsub.
  destruct ((cwd ++ [r]) ++ [k]) eqn:E; [by destruct cwd|]. rewrite <- E.
  rewrite (update_child_as_parent _ _ _ _ _ (snoc_not_nil _ _) Hm). done.
Qed.

Lemma clean_item_spec (t : node) (lg : list (level * message)) (k : string)
    (m : gmap string node) :
  valid_name k = true → get t loc = Some (Dir m) →
  ∃ added,
    Forall (λ e, e.1 = INFO) added ∧
    clean_item cwd r (join r (normpath keep)) k (State t lg)
    = (Ok tt, State (update loc (λ _, Some (Dir (prune_step r keep m k))) t)
                (lg ++ added)).
Proof.
  intros Hk Hm. unfold clean_item, prune_step, protected.
  destruct (_ || _ || _).
  - exists []. by rewrite (update_id _ _ _ Hm), app_nil_r.
  - py_unfold. cbn [fs log]. rewrite (isdir_child _ _ _ Hk Hm).
    destruct (m !! k) as [[| | |sub]|] eqn:E; cbn [is_dir];
      try (exists []; by rewrite (update_id _ _ _ Hm), app_nil_r).
    cbn [fs log]. rewrite (rmtree_child _ _ _ _ Hk Hm E). cbn [fs log].
    exists [(INFO, RemovedDir k)]. split; [by repeat constructor|done].
Qed.

Lemma clean_loop_spec (items : list string) (t : node)
    (lg : list (level * message)) (m : gmap string node) :
  Forall (λ k, valid_name k = true) items → get t loc = Some (Dir m) →
  ∃ added,
    Forall (λ e, e.1 = INFO) added ∧
    for_each items (clean_item cwd r (join r (normpath keep))) (State t lg)
    = (Ok tt, State (update loc (λ _, Some (Dir (foldl (prune_step r keep) m items))) t)
                (lg ++ added)).
Proof.
  revert t lg m. induction items as [|k items IH]; intros t lg m Hv Hm.
  - exists []. simpl. by rewrite (update_id _ _ _ Hm), app_nil_r.
  - apply Forall_cons in Hv as [Hk Hv].
    destruct (clean_item_spec t lg k m Hk Hm) as (a1 & Ha1 & H1).
    cbn [for_each foldl]. unfold bind at 1. rewrite H1.
    set (t1 := update loc _ t).
    assert (Hm1 : get t1 loc = Some (Dir (prune_step r keep m k))).
    { apply get_update_here; [apply snoc_not_nil | by rewrite Hm]. }
    destruct (IH t1 (lg ++ a1) _ Hv Hm1) as (a2 & Ha2 & H2).
    exists (a1 ++ a2). split; [by apply Forall_app|]. rewrite H2.
    unfold t1. by rewrite update_update_same, app_assoc.
Qed.

(** The prune stage, from a root whose entries have valid names: it
    fails when the kept path does not exist and leaves everything as it
    is, and otherwise succeeds and leaves at the root the protected
    entries and those that are not directories. *)
Lemma clean_directory_spec (t : node) (lg : list (level * message))
    (m : gmap string node) :
  get t loc = Some (Dir m) → names_ok m →
  if exists_ cwd t (join r (normpath keep)) then
    ∃ added,
      Forall (λ e, e.1 = INFO) added ∧ (INFO, CleanDone) ∈ added ∧
      clean_directory cwd r keep (State t lg)
      = (Ok true, State (update loc (λ _, Some (Dir (pruned r keep m))) t)
                    (lg ++ added))
  else
    clean_directory cwd r keep (State t lg)
    = (Ok false, State t (lg ++ [(INFO, CleanStart keep);
                                 (ERROR, KeepPathMissing (normpath keep))])).
Proof.
  intros Hm Hok. unfold clean_directory. py_unfold. cbn [fs log].
  destruct (exists_ cwd t (join r (normpath keep))); cbn [negb fs log].
  - unfold listdir. rewrite (listing_name _ _ _ _ Hr Hm).
    edestruct (clean_loop_spec (map_to_list m).*1 t) as (added & Hadded & H);
      [|exact Hm|].
    { apply Forall_forall. intros k [n Hn]%elem_of_listdir. by apply (Hok k n). }
    rewrite H. cbn [fs log]. rewrite prune_fold_pruned.
    exists ([(INFO, CleanStart keep)] ++ added ++ [(INFO, CleanDone)]).
    split_and!.
    + apply Forall_app. split; [by repeat constructor|].
      apply Forall_app. split; [done|by repeat constructor].
    + apply elem_of_app. right. apply elem_of_app. right.
      by apply list_elem_of_singleton.
    + by rewrite <- !app_assoc.
  - by rewrite <- app_assoc.
Qed.

End Root.

End PruneFacts.

(** ** The name of the archive *)

Module NameFacts.
Import PyStr PosixPath FS Py Task2 StrFacts TreeFacts ResolveFacts StampFacts.

Lemma no_slash_app (a b : string) :
  no_slash (a +:+ b) = no_slash a && no_slash b.
Proof.
  induction a as [|c a IH]; [done|].
  rewrite append_cons. simpl. rewrite IH. by rewrite andb_assoc.
Qed.

Lemma rpartition_no_slash (s : string) :
  no_slash s = true → rpartition_slash s = ("", s).
Proof.
  induction s as [|c s IH]; [done|]. simpl.
  intros [Hc Hs]%andb_true_iff. apply negb_true_iff in Hc.
  by rewrite (IH Hs), Hc.
Qed.

Lemma rpartition_cons (x : ascii) (s : string) :
  rpartition_slash (String x s) =
  let '(h, t) := rpartition_slash s in
  if String.eqb h "" then if is_slash x then ("/", t) else ("", String x t)
  else (String x h, t).
Proof. reflexivity. Qed.

Lemma rpartition_app (a c : string) :
  no_slash c = true → rpartition_slash (a +:+ "/" +:+ c) = (a +:+ "/", c).
Proof.
  intros Hc. induction a as [|x a IH].
  - rewrite append_nil_l. change ("/" +:+ c) with (String "/" c).
    by rewrite rpartition_cons, (rpartition_no_slash _ Hc).
  - rewrite (append_cons x a), (append_cons x a "/"), rpartition_cons, IH.
    destruct (String.eqb (a +:+ "/") "") eqn:E; [|done].
    apply String.eqb_eq in E. by destruct a.
Qed.

(** The last component of a path that ends in a name. *)
Lemma basename_app (a c : string) :
  no_slash c = true → a = "" ∨ endswith a "/" = true → basename (a +:+ c) = c.
Proof.
  intros Hc [->|[pre ->]%endswith_spec]; unfold basename.
  - by rewrite append_nil_l, rpartition_no_slash.
  - by rewrite append_assoc, rpartition_app.
Qed.











Local Open Scope Z_scope.

Ltac div_lia := Z.to_euclidean_division_equations; lia.

Lemma digit_not_slash (d : Z) : 0 ≤ d < 10 → is_slash (digit d) = false.
Proof.
  intros H.
  assert (d = 0 ∨ d = 1 ∨ d = 2 ∨ d = 3 ∨ d = 4 ∨ d = 5 ∨ d = 6 ∨ d = 7
          ∨ d = 8 ∨ d = 9) as Hd by lia.
  by repeat destruct Hd as [->|Hd]; [..|subst d].
Qed.

Lemma no_slash_two_digits (n : Z) : no_slash (two_digits n) = true.
Proof.
  unfold two_digits. cbn [no_slash].
  rewrite !digit_not_slash; [done|div_lia..].
Qed.

Lemma no_slash_decimal (fuel : nat) (n : Z) :
  0 ≤ n → no_slash (decimal fuel n) = true.
Proof.
  revert n. induction fuel as [|fuel IH]; intros n Hn; cbn [decimal].
  - cbn [no_slash]. rewrite digit_not_slash; [done|div_lia].
  - destruct (n <? 10) eqn:E.
    + apply Z.ltb_lt in E. cbn [no_slash]. by rewrite digit_not_slash by lia.
    + rewrite no_slash_app, IH by div_lia. cbn [no_slash].
      rewrite digit_not_slash; [done|div_lia].
Qed.

Lemma no_slash_strftime (d : date) : 0 ≤ year d → no_slash (strftime_Ymd d) = true.
Proof.
  intros H. unfold strftime_Ymd.
  by rewrite !no_slash_app, no_slash_decimal, !no_slash_two_digits.
Qed.



Local Close Scope Z_scope.

Lemma join_app_r (a b x : string) :
  b ≠ "" → join a b +:+ x = join a (b +:+ x).
Proof.
  intros Hb. unfold join. rewrite (startswith_app b x Hb).
  destruct (startswith b "/"); [done|].
  destruct (_ || _); by rewrite ?append_assoc.
Qed.





End NameFacts.

(** ** Removing entries *)

Module SubFacts.
Import PyStr PosixPath FS Py Task2 StrFacts TreeFacts ResolveFacts PruneFacts.

Lemma sub_dir_inv (m' : gmap string node) (x : node) :
  sub (Dir m') x →
  ∃ m, x = Dir m ∧ ∀ k x', m' !! k = Some x' → ∃ x, m !! k = Some x ∧ sub x' x.
Proof.
  inversion 1; subst.
  - exists m'. split; [done|]. intros k x' Hk. exists x'. split; [done|apply sub_refl].
  - eauto.
Qed.

Lemma sub_get (t' t x' : node) (loc : list string) :
  sub t' t → get t' loc = Some x' → ∃ x, get t loc = Some x ∧ sub x' x.
Proof.
  revert t' t. induction loc as [|c loc IH]; intros t' t Hs Hg.
  - simpl in Hg. simplify_eq. by exists t.
  - destruct t' as [| | |m']; try done. simpl in Hg.
    destruct (m' !! c) as [ch'|] eqn:Hc; [|done]. simpl in Hg.
    apply sub_dir_inv in Hs as (m & -> & Hm).
    destruct (Hm _ _ Hc) as (ch & Hch & Hsub).
    simpl. rewrite Hch. simpl. by apply (IH ch').
Qed.

Lemma sub_step (t' t : node) (loc l2 : list string) (c : string) :
  sub t' t → step t' loc c = Ok l2 → step t loc c = Ok l2.
Proof.
  intros Hs. unfold step.
  destruct (get t' loc) as [[| | |m']|] eqn:Hg; try done.
  destruct (sub_get _ _ _ _ Hs Hg) as (x & Hx & Hsub).
  apply sub_dir_inv in Hsub as (m & -> & Hm). rewrite Hx.
  destruct (_ || _); [done|]. destruct (String.eqb c ".."); [done|].
  destruct (m' !! c) as [ch'|] eqn:Hc; [|done].
  destruct (Hm _ _ Hc) as (ch & -> & _). done.
Qed.

Lemma sub_walk (t' t : node) (loc l2 : list string) (comps : list string) :
  sub t' t → walk t' loc comps = Ok l2 → walk t loc comps = Ok l2.
Proof.
  intros Hs. revert loc. induction comps as [|c comps IH]; intros loc; [done|].
  simpl. destruct (step t' loc c) as [l1|] eqn:H1; [|done].
  rewrite (sub_step _ _ _ _ _ Hs H1). apply IH.
Qed.

(** What exists after entries were removed existed before. *)
Lemma sub_stat cwd (t' t x' : node) (p : string) :
  sub t' t → stat cwd t' p = Ok x' → ∃ x, stat cwd t p = Ok x ∧ sub x' x.
Proof.
  intros Hs. unfold stat, resolve. destruct (String.eqb p ""); [done|].
  destruct (walk t' _ _) as [loc|] eqn:Hw; [|done].
  rewrite (sub_walk _ _ _ _ _ Hs Hw).
  destruct (get t' loc) as [y|] eqn:Hg; [|done]. intros [= <-].
  destruct (sub_get _ _ _ _ Hs Hg) as (x & -> & Hsub). eauto.
Qed.

Lemma sub_update (t : node) (loc : list string) (m m' : gmap string node) :
  get t loc = Some (Dir m) → m' ⊆ m →
  sub (update loc (λ _, Some (Dir m')) t) t.
Proof.
  intros Hg Hsub. revert t Hg. induction loc as [|c loc IH]; intros t Hg.
  - apply sub_refl.
  - destruct t as [| | |m0]; try done. simpl in Hg.
    destruct (m0 !! c) as [ch|] eqn:Hc; [|done]. simpl in Hg.
    destruct loc as [|c' loc].
    + simpl in Hg. simplify_eq. simpl. apply sub_dir. intros k x' Hk.
      destruct (decide (c = k)) as [<-|Hne].
      * rewrite lookup_partial_alter_eq in Hk. simplify_eq.
        exists (Dir m). split; [done|]. apply sub_dir. intros j y Hj.
        exists y. split; [by eapply lookup_weaken|apply sub_refl].
      * rewrite lookup_partial_alter_ne in Hk by done.
        exists x'. split; [done|apply sub_refl].
    + rewrite update_cons_cons. apply sub_dir. intros k x' Hk.
      destruct (decide (c = k)) as [<-|Hne].
      * rewrite lookup_alter_eq, Hc in Hk. simpl in Hk. simplify_eq.
        exists ch. split; [done|]. by apply IH.
      * rewrite lookup_alter_ne in Hk by done.
        exists x'. split; [done|apply sub_refl].
Qed.

Lemma pruned_subseteq (r keep : string) (m : gmap string node) : pruned r keep m ⊆ m.
Proof. apply map_filter_subseteq. Qed.

End SubFacts.

(** ** The driver *)

Module MainFacts.
Import PyStr PosixPath FS Py Task2 StrFacts TreeFacts ResolveFacts StampFacts PruneFacts NameFacts SubFacts.

Section Temp.
Context (cwd : list string).
Local Abbreviation temp := (cwd ++ ["temp_repo"]).

Lemma exists_name (t : node) (r : string) (mc : gmap string node) :
  valid_name r = true → get t cwd = Some (Dir mc) →
  exists_ cwd t r = bool_decide (is_Some (mc !! r)).
Proof.
  intros Hr Hc. unfold exists_, stat.
  rewrite resolve_unfold by (intros ->; done).
  unfold start. rewrite (valid_name_startswith _ Hr).
  rewrite (split_slash_no_slash r) by by apply valid_name_no_slash.
  rewrite walk_singleton, (step_name _ _ _ _ Hc Hr).
  destruct (mc !! r) as [n|] eqn:E.
  - by rewrite (get_snoc _ _ _ _ Hc), E.
  - done.
Qed.

Lemma rmtree_name (t : node) (r : string) (m : gmap string node) :
  valid_name r = true → get t (cwd ++ [r]) = Some (Dir m) →
  rmtree cwd t r = Ok (update (cwd ++ [r]) (λ _, None) t).
Proof.
  intros Hr Hm. unfold rmtree. rewrite (resolve_name _ _ _ _ Hr Hm), Hm.
  destruct (cwd ++ [r]) eqn:E; [by destruct cwd|]. done.
Qed.

Lemma rmtree_name_file (t n : node) (r : string) :
  valid_name r = true → get t (cwd ++ [r]) = Some n → is_dir n = false →
  rmtree cwd t r = Err NotADirectoryError.
Proof.
  intros Hr Hn Hf. unfold rmtree. rewrite (resolve_name _ _ _ _ Hr Hn), Hn.
  by destruct n.
Qed.

Lemma resolve_parent_name (t : node) (r : string) (mc : gmap string node) :
  valid_name r = true → get t cwd = Some (Dir mc) →
  resolve_parent cwd t r = Ok (cwd, r).
Proof.
  intros Hr Hc. unfold resolve_parent.
  assert (String.eqb r "" = false) as -> by (apply String.eqb_neq; by intros ->).
  unfold start. rewrite (valid_name_startswith _ Hr).
  rewrite (split_slash_no_slash r) by by apply valid_name_no_slash.
  cbn [removelast List.last walk]. rewrite Hc.
  by destruct (valid_name_not_special _ Hr) as [-> ->].
Qed.

(** Deleting what is not there changes nothing. *)
Lemma update_delete_absent (t : node) (loc : list string) :
  get t loc = None → update loc (λ _, None) t = t.
Proof.
  revert t. induction loc as [|c loc IH]; intros t H; [done|].
  destruct t as [| | |m0]; try done. simpl in H.
  destruct loc as [|c' loc].
  - simpl. f_equal. apply partial_alter_id.
    destruct (m0 !! c); [done|done].
  - rewrite update_cons_cons. f_equal. apply map_eq. intros j.
    destruct (decide (c = j)) as [<-|Hj].
    + rewrite lookup_alter_eq. destruct (m0 !! c) as [ch|] eqn:Hc; [|done].
      simpl in *. f_equal. by apply IH.
    + by rewrite lookup_alter_ne.
Qed.

Lemma update_insert_after_delete (t x : node) (loc : list string) :
  update loc (λ _, Some x) (update loc (λ _, None) t) = update loc (λ _, Some x) t.
Proof.
  revert t. induction loc as [|c loc IH]; intros t; [done|].
  destruct t as [| | |m0]; try done.
  destruct loc as [|c' loc].
  - simpl. f_equal. by rewrite partial_alter_partial_alter_eq.
  - rewrite !update_cons_cons. f_equal. rewrite alter_alter_eq.
    apply alter_ext. intros z _. apply IH.
Qed.

(** The clone into [temp_repo], when nothing is in the way. *)
Lemma clone_repository_spec git (url : string) (t : node)
    (lg : list (level * message)) (mc : gmap string node) :
  get t cwd = Some (Dir mc) → mc !! "temp_repo" = None →
  clone_repository cwd git url "temp_repo" (State t lg) =
  match git url with
  | Some tree =>
      (Ok true, State (update temp (λ _, Some (Dir tree)) t)
                  (lg ++ [(INFO, CloneStart url); (INFO, CloneDone)]))
  | None =>
      (Ok false, State t (lg ++ [(INFO, CloneStart url);
                                 (ERROR, CloneError CalledProcessError)]))
  end.
Proof.
  intros Hc Habs. unfold clone_repository, git_clone. py_unfold. cbn [fs log].
  destruct (git url) as [tree|]; cbn [fs log is_called_process_error].
  - rewrite (resolve_parent_name t "temp_repo" mc eq_refl Hc).
    rewrite (get_snoc _ _ _ _ Hc), Habs. cbn [fs log]. by rewrite <- app_assoc.
  - by rewrite <- app_assoc.
Qed.

End Temp.

Lemma keeps_dirs_refl (t : node) : keeps_dirs t t.
Proof. intros loc m H. eauto. Qed.

Lemma keeps_dirs_trans (t1 t2 t3 : node) :
  keeps_dirs t1 t2 → keeps_dirs t2 t3 → keeps_dirs t1 t3.
Proof. intros H12 H23 loc m H. destruct (H12 _ _ H) as [m2 H2]. eauto. Qed.

(** Putting a file where no directory is keeps every directory. *)
Lemma update_keeps_dirs (t x : node) (P : list string) :
  (∀ m, get t P ≠ Some (Dir m)) → keeps_dirs t (update P (λ _, Some x) t).
Proof.
  revert t. induction P as [|c P IH]; intros t HP loc m Hg; [eauto|].
  destruct t as [| | |m0]; [eauto..|].
  destruct loc as [|c2 loc].
  { destruct P; simpl; eauto. }
  simpl in Hg. destruct (m0 !! c2) as [ch|] eqn:Hc2; [|done]. simpl in Hg.
  destruct (decide (c = c2)) as [->|Hne].
  - destruct P as [|c' P].
    + exfalso. destruct ch as [| | |mm].
      1-3: by destruct loc.
      apply (HP mm). simpl. by rewrite Hc2.
    + rewrite update_cons_cons. cbn [get]. rewrite lookup_alter_eq, Hc2.
      cbn [fmap option_fmap option_map mbind option_bind].
      refine (IH ch _ loc m Hg). intros mm Hmm. apply (HP mm).
      cbn [get]. by rewrite Hc2.
  - destruct P as [|c' P].
    + simpl. rewrite lookup_partial_alter_ne, Hc2 by done. simpl. eauto.
    + rewrite update_cons_cons. cbn [get]. rewrite lookup_alter_ne, Hc2 by done.
      cbn [mbind option_bind]. eauto.
Qed.

Lemma write_file_keeps_dirs cwd (t t' n : node) (p : string) :
  write_file cwd t p n = Ok t' → keeps_dirs t t'.
Proof.
  unfold write_file. destruct (resolve_parent cwd t p) as [[loc name]|]; [|done].
  destruct (get t (loc ++ [name])) as [[| | |mm]|] eqn:Hg; try done;
    intros [= <-]; apply update_keeps_dirs; intros m; by rewrite Hg.
Qed.

(** The two ways the stamp stage ends. *)
Lemma create_version_file_shape cwd (sd ver : string) (t : node)
    (lg : list (level * message)) :
  (∃ t' files,
     create_version_file cwd sd ver (State t lg)
     = (Ok true, State t' (lg ++ [(INFO, VersionStart sd);
                                  (INFO, VersionDone (version_data ver files))]))
     ∧ keeps_dirs t t' ∧ is_ok (listdir cwd t sd) = true)
  ∨ (∃ e,
       create_version_file cwd sd ver (State t lg)
       = (Ok false, State t (lg ++ [(INFO, VersionStart sd);
                                    (ERROR, VersionError e)]))).
Proof.
  unfold create_version_file. py_unfold. cbn [fs log].
  destruct (listdir cwd t sd) as [names|e]; cbn [fs log].
  - set (files := filter _ names).
    destruct (write_file cwd t _ _) as [t'|e] eqn:Hw; cbn [fs log].
    + left. exists t', files. rewrite <- app_assoc. split_and!; [done| |done].
      by eapply write_file_keeps_dirs.
    + right. exists e. by rewrite <- app_assoc.
  - right. exists e. by rewrite <- app_assoc.
Qed.

Lemma create_version_file_listdir_err cwd (sd ver : string) (t : node)
    (lg : list (level * message)) (e : exn) :
  listdir cwd t sd = Err e →
  create_version_file cwd sd ver (State t lg)
  = (Ok false, State t (lg ++ [(INFO, VersionStart sd); (ERROR, VersionError e)])).
Proof.
  intros H. unfold create_version_file. py_unfold. cbn [fs log].
  rewrite H. cbn [fs log]. by rewrite <- app_assoc.
Qed.

(** The two ways the package stage ends. *)
Lemma create_archive_shape cwd now (sd : string) (t : node)
    (lg : list (level * message)) :
  let name := basename (normpath sd) +:+ strftime_Ymd now in
  (∃ t' path,
     create_archive cwd now sd (State t lg)
     = (Ok path, State t' (lg ++ [(INFO, ArchiveStart name sd);
                                  (INFO, ArchiveDone path)]))
     ∧ path ≠ "" ∧ keeps_dirs t t')
  ∨ (∃ t' e,
       create_archive cwd now sd (State t lg)
       = (Ok "", State t' (lg ++ [(INFO, ArchiveStart name sd);
                                  (ERROR, ArchiveError e)]))
       ∧ keeps_dirs t t').
Proof.
  intros name. unfold create_archive, make_archive. py_unfold. cbn [fs log].
  fold name.
  destruct (stat cwd t sd) as [root|e]; cbn [fs log].
  2:{ right. exists t, e. rewrite <- app_assoc. split; [done|apply keeps_dirs_refl]. }
  destruct (is_dir root); cbn [negb fs log].
  2:{ right. exists t, NotADirectoryError. rewrite <- app_assoc.
      split; [done|apply keeps_dirs_refl]. }
  destruct (write_file cwd t _ _) as [t1|e] eqn:Hw1; cbn [fs log].
  2:{ right. exists t, e. rewrite <- app_assoc. split; [done|apply keeps_dirs_refl]. }
  pose proof (write_file_keeps_dirs _ _ _ _ _ Hw1) as Hk1.
  destruct (listing cwd t1 sd) as [members|e]; cbn [fs log].
  2:{ right. exists t1, e. rewrite <- app_assoc. done. }
  destruct (write_file cwd t1 _ _) as [t2|e] eqn:Hw2; cbn [fs log].
  2:{ right. exists t1, e. rewrite <- app_assoc. done. }
  left. eexists t2, _. rewrite <- app_assoc. split_and!; [done| |].
  - intros E. apply app_eq_nil in E as E'. rewrite E' in E. done.
  - eapply keeps_dirs_trans; [done|]. by eapply write_file_keeps_dirs.
Qed.

Section Fresh.
Context (cwd : list string) (git : string → option (gmap string node))
  (now : date) (url sp ver : string).
Context (t0 : node) (lg0 : list (level * message)) (mc : gmap string node).
Hypothesis Hcwd : get t0 cwd = Some (Dir mc).
Hypothesis Hfresh : mc !! "temp_repo" = None.
Hypothesis Hgit : ∀ tree, git url = Some tree → names_ok tree.

Local Abbreviation temp := (cwd ++ ["temp_repo"]).
Local Abbreviation sd := (join "temp_repo" sp).
Local Abbreviation t2 := (λ tree, update temp (λ _, Some (Dir tree)) t0).
Local Abbreviation t3 :=
  (λ tree, update temp (λ _, Some (Dir (pruned "temp_repo" sp tree))) t0).
Local Abbreviation all_info := (Forall (λ e : level * message, e.1 = INFO)).

Lemma get_temp_cloned (x : node) : get (update temp (λ _, Some x) t0) temp = Some x.
Proof. by rewrite (get_update_same _ _ _ _ _ Hcwd). Qed.

Lemma delete_temp_cloned (x : node) :
  update temp (λ _, None) (update temp (λ _, Some x) t0) = t0.
Proof.
  rewrite update_delete_after. apply update_delete_absent.
  by rewrite (get_snoc _ _ _ _ Hcwd).
Qed.

Lemma rmtree_temp (t : node) (m : gmap string node) :
  get t temp = Some (Dir m) →
  rmtree cwd t "temp_repo" = Ok (update temp (λ _, None) t).
Proof. intros H. by apply (rmtree_name cwd t "temp_repo" m). Qed.

(** Every run of [main] that finds no [temp_repo] in its way, by the
    point at which it ends. *)
Lemma main_cases_fresh (r : res return_point) (s' : state) :
  main cwd git now url sp ver (State t0 lg0) = (r, s') →
  (git url = None ∧ r = Ok ReturnCloneFailed
     ∧ s' = State t0 (lg0 ++ [(INFO, CloneStart url);
                              (ERROR, CloneError CalledProcessError)]))
  ∨ (∃ tree, git url = Some tree
       ∧ exists_ cwd (t2 tree) (join "temp_repo" (normpath sp)) = false
       ∧ r = Ok ReturnCleanFailed
       ∧ s' = State t0 (lg0 ++ [(INFO, CloneStart url); (INFO, CloneDone);
                                (INFO, CleanStart sp);
                                (ERROR, KeepPathMissing (normpath sp))]))
  ∨ (∃ tree added e, git url = Some tree
       ∧ exists_ cwd (t2 tree) (join "temp_repo" (normpath sp)) = true
       ∧ all_info added ∧ (INFO, CleanDone) ∈ added
       ∧ r = Ok ReturnVersionFailed
       ∧ s' = State t0 (lg0 ++ added ++ [(ERROR, VersionError e)]))
  ∨ (∃ tree added e t5, git url = Some tree
       ∧ exists_ cwd (t2 tree) (join "temp_repo" (normpath sp)) = true
       ∧ is_ok (listdir cwd (t3 tree) sd) = true
       ∧ all_info added ∧ (INFO, CleanDone) ∈ added
       ∧ r = Ok ReturnArchiveFailed
       ∧ s' = State t5 (lg0 ++ added ++ [(ERROR, ArchiveError e)])
       ∧ get t5 temp = None)
  ∨ (∃ tree added path, git url = Some tree
       ∧ exists_ cwd (t2 tree) (join "temp_repo" (normpath sp)) = true
       ∧ is_ok (listdir cwd (t3 tree) sd) = true
       ∧ all_info added ∧ (INFO, CleanDone) ∈ added
       ∧ path ≠ ""
       ∧ ((r = Ok ReturnEnd
           ∧ log s' = lg0 ++ added ++ [(INFO, BuildDone (basename path))])
          ∨ (∃ e, r = Err e ∧ log s' = lg0 ++ added))).
Proof.
  intros Hrun. unfold main in Hrun. py_unfold. cbn [fs log] in Hrun.
  rewrite (exists_name cwd t0 "temp_repo" mc eq_refl Hcwd), Hfresh in Hrun.
  rewrite bool_decide_eq_false_2 in Hrun by (by intros [? ?]).
  rewrite (clone_repository_spec cwd git url t0 lg0 mc Hcwd Hfresh) in Hrun.
  destruct (git url) as [tree|] eqn:Hg; cbn [negb] in Hrun.
  2:{ simplify_eq. by left. }
  right.
  pose proof (clean_directory_spec cwd "temp_repo" sp eq_refl (t2 tree)
                (lg0 ++ [(INFO, CloneStart url); (INFO, CloneDone)]) tree
                (get_temp_cloned _) (Hgit tree eq_refl)) as Hclean.
  destruct (exists_ cwd (t2 tree) (join "temp_repo" (normpath sp))) eqn:Hex.
  2:{ rewrite Hclean in Hrun. cbn [negb fs log] in Hrun.
      rewrite (rmtree_temp _ _ (get_temp_cloned _)), delete_temp_cloned in Hrun.
      simplify_eq. left. exists tree. by rewrite <- app_assoc. }
  right. destruct Hclean as (a1 & Ha1 & Hdone & Hclean). rewrite Hclean in Hrun.
  cbn [negb fs log] in Hrun. rewrite update_update_same in Hrun.
  set (pre := [(INFO, CloneStart url); (INFO, CloneDone)] ++ a1).
  assert (Hpre : all_info pre) by (apply Forall_app; split; [by repeat constructor|done]).
  assert (Hpre_done : (INFO, CleanDone) ∈ pre) by (apply elem_of_app; by right).
  assert ((lg0 ++ [(INFO, CloneStart url); (INFO, CloneDone)]) ++ a1 = lg0 ++ pre)
    as Hlg by (unfold pre; by rewrite <- !app_assoc).
  rewrite Hlg in Hrun. clear Hlg Hclean.
  assert (Ht3 : get (t3 tree) temp = Some (Dir (pruned "temp_repo" sp tree)))
    by apply get_temp_cloned.
  destruct (create_version_file_shape cwd sd ver (t3 tree) (lg0 ++ pre))
    as [(t4 & files & Hv & Hk4 & Hls)|(e & Hv)]; rewrite Hv in Hrun;
    cbn [negb fs log] in Hrun.
  2:{ rewrite (rmtree_temp _ _ Ht3), delete_temp_cloned in Hrun. simplify_eq.
      left. exists tree, (pre ++ [(INFO, VersionStart sd)]), e.
      split_and!; [done..| | |done|].
      - apply Forall_app. split; [done|by repeat constructor].
      - apply elem_of_app. by left.
      - by rewrite <- !app_assoc. }
  right.
  set (pre4 := pre ++ [(INFO, VersionStart sd);
                       (INFO, VersionDone (version_data ver files))]).
  assert (Hpre4 : all_info pre4)
    by (apply Forall_app; split; [done|by repeat constructor]).
  assert (Hpre4_done : (INFO, CleanDone) ∈ pre4) by (apply elem_of_app; by left).
  assert ((lg0 ++ pre) ++ [(INFO, VersionStart sd);
                           (INFO, VersionDone (version_data ver files))]
          = lg0 ++ pre4) as Hlg by (unfold pre4; by rewrite <- !app_assoc).
  rewrite Hlg in Hrun. clear Hlg Hv.
  destruct (Hk4 _ _ Ht3) as [m4 Ht4].
  destruct (create_archive_shape cwd now sd t4 (lg0 ++ pre4))
    as [(t5 & path & Ha & Hne & Hk5)|(t5 & e & Ha & Hk5)]; rewrite Ha in Hrun.
  2:{ cbn [String.eqb fs log] in Hrun.
      destruct (Hk5 _ _ Ht4) as [m5 Ht5].
      rewrite (rmtree_temp _ _ Ht5) in Hrun. simplify_eq.
      left. eexists tree, (pre4 ++ [(INFO, ArchiveStart _ sd)]), e, _.
      split_and!; [done..| | | done | |].
      - apply Forall_app. split; [done|by repeat constructor].
      - apply elem_of_app. by left.
      - by rewrite <- !app_assoc.
      - apply get_snoc_Some in Ht5 as (mp & Hmp & _).
        by rewrite (get_update_same _ _ _ _ _ Hmp). }
  right. apply String.eqb_neq in Hne as Hne'. rewrite Hne' in Hrun.
  eexists tree, (pre4 ++ [(INFO, ArchiveStart _ sd); (INFO, ArchiveDone path)]), path.
  split_and!; [done..| | |done|].
  - apply Forall_app. split; [done|by repeat constructor].
  - apply elem_of_app. by left.
  - cbn [fs log] in Hrun.
    destruct (move cwd t5 path (basename path)) as [t6|e6]; cbn [fs log] in Hrun.
    2:{ simplify_eq. right. exists e6. split; [done|]. cbn [log].
        by rewrite <- !app_assoc. }
    destruct (rmtree cwd t6 "temp_repo") as [t7|e7]; cbn [fs log] in Hrun;
      simplify_eq; cbn [log].
    + left. split; [done|]. by rewrite <- !app_assoc.
    + right. exists e7. split; [done|]. by rewrite <- !app_assoc.
Qed.

End Fresh.

Section Run.
Context (cwd : list string) (git : string → option (gmap string node))
  (now : date) (url sp ver : string).
Context (t0 : node) (lg0 : list (level * message)) (mc : gmap string node).
Hypothesis Hcwd : get t0 cwd = Some (Dir mc).
Hypothesis Hgit : ∀ tree, git url = Some tree → names_ok tree.

Local Abbreviation temp := (cwd ++ ["temp_repo"]).
Local Abbreviation sd := (join "temp_repo" sp).
Local Abbreviation t1 := (update temp (λ _, None) t0).
Local Abbreviation t2 := (λ tree, update temp (λ _, Some (Dir tree)) t0).
Local Abbreviation t3 :=
  (λ tree, update temp (λ _, Some (Dir (pruned "temp_repo" sp tree))) t0).
Local Abbreviation all_info := (Forall (λ e : level * message, e.1 = INFO)).

(** A stale [temp_repo] that is a directory is removed first; the run
    then goes on as if it had not been there. *)
Lemma main_removes_stale (m : gmap string node) :
  mc !! "temp_repo" = Some (Dir m) →
  main cwd git now url sp ver (State t0 lg0)
  = main cwd git now url sp ver (State t1 lg0).
Proof.
  intros Hm.
  assert (Ht : get t0 temp = Some (Dir m)) by by rewrite (get_snoc _ _ _ _ Hcwd).
  assert (Hc1 : get t1 cwd = Some (Dir (delete "temp_repo" mc)))
    by apply (get_update_child _ _ _ _ _ Hcwd).
  unfold main. py_unfold. cbn [fs log].
  rewrite (exists_name cwd t0 "temp_repo" mc eq_refl Hcwd), Hm.
  rewrite (exists_name cwd t1 "temp_repo" _ eq_refl Hc1), lookup_delete_eq.
  rewrite bool_decide_eq_true_2 by eauto.
  rewrite bool_decide_eq_false_2 by (by intros [? ?]).
  cbn [fs log]. by rewrite (rmtree_name cwd t0 "temp_repo" m eq_refl Ht).
Qed.

(** Every run of [main], by the point at which it ends. *)
Lemma main_cases (r : res return_point) (s' : state) :
  main cwd git now url sp ver (State t0 lg0) = (r, s') →
  (∃ n, mc !! "temp_repo" = Some n ∧ is_dir n = false
        ∧ r = Err NotADirectoryError ∧ s' = State t0 lg0)
  ∨ (git url = None ∧ r = Ok ReturnCloneFailed
     ∧ s' = State t1 (lg0 ++ [(INFO, CloneStart url);
                              (ERROR, CloneError CalledProcessError)]))
  ∨ (∃ tree, git url = Some tree
       ∧ exists_ cwd (t2 tree) (join "temp_repo" (normpath sp)) = false
       ∧ r = Ok ReturnCleanFailed
       ∧ s' = State t1 (lg0 ++ [(INFO, CloneStart url); (INFO, CloneDone);
                                (INFO, CleanStart sp);
                                (ERROR, KeepPathMissing (normpath sp))]))
  ∨ (∃ tree added e, git url = Some tree
       ∧ exists_ cwd (t2 tree) (join "temp_repo" (normpath sp)) = true
       ∧ all_info added ∧ (INFO, CleanDone) ∈ added
       ∧ r = Ok ReturnVersionFailed
       ∧ s' = State t1 (lg0 ++ added ++ [(ERROR, VersionError e)]))
  ∨ (∃ tree added e t5, git url = Some tree
       ∧ exists_ cwd (t2 tree) (join "temp_repo" (normpath sp)) = true
       ∧ is_ok (listdir cwd (t3 tree) sd) = true
       ∧ all_info added ∧ (INFO, CleanDone) ∈ added
       ∧ r = Ok ReturnArchiveFailed
       ∧ s' = State t5 (lg0 ++ added ++ [(ERROR, ArchiveError e)])
       ∧ get t5 temp = None)
  ∨ (∃ tree added path, git url = Some tree
       ∧ exists_ cwd (t2 tree) (join "temp_repo" (normpath sp)) = true
       ∧ is_ok (listdir cwd (t3 tree) sd) = true
       ∧ all_info added ∧ (INFO, CleanDone) ∈ added
       ∧ path ≠ ""
       ∧ ((r = Ok ReturnEnd
           ∧ log s' = lg0 ++ added ++ [(INFO, BuildDone (basename path))])
          ∨ (∃ e, r = Err e ∧ log s' = lg0 ++ added))).
Proof.
  intros Hrun. destruct (mc !! "temp_repo") as [n|] eqn:Hstale.
  - destruct n as [d|j|z|m].
    1-3: left; eexists; split_and!; [done..| |];
      unfold main in Hrun; py_unfold; cbn [fs log] in Hrun;
      rewrite (exists_name cwd t0 "temp_repo" mc eq_refl Hcwd), Hstale in Hrun;
      rewrite bool_decide_eq_true_2 in Hrun by eauto;
      cbn [fs log] in Hrun;
      (erewrite (rmtree_name_file cwd t0 _ "temp_repo" eq_refl) in Hrun;
         [|by rewrite (get_snoc _ _ _ _ Hcwd), Hstale|done]);
      by simplify_eq.
    right. rewrite (main_removes_stale m Hstale) in Hrun.
    assert (Hc1 : get t1 cwd = Some (Dir (delete "temp_repo" mc)))
      by apply (get_update_child _ _ _ _ _ Hcwd).
    pose proof (main_cases_fresh cwd git now url sp ver t1 lg0 _ Hc1
                  (lookup_delete_eq _ _) Hgit r s' Hrun) as H.
    by setoid_rewrite update_insert_after_delete in H.
  - right.
    assert (t1 = t0) as Ht1.
    { apply update_delete_absent. by rewrite (get_snoc _ _ _ _ Hcwd). }
    rewrite Ht1.
    exact (main_cases_fresh cwd git now url sp ver t0 lg0 mc Hcwd Hstale Hgit r s' Hrun).
Qed.

End Run.

End MainFacts.

(** ** [normpath] and path resolution *)

Module NormFacts.
Import PyStr PosixPath FS Py Task2 StrFacts TreeFacts ResolveFacts NameFacts.

Lemma step_dir (t : node) (loc l : list string) (c : string) :
  step t loc c = Ok l → ∃ m, get t loc = Some (Dir m).
Proof. unfold step. destruct (get t loc) as [[| | |m]|]; try done. eauto. Qed.

Lemma step_special (t : node) (loc l : list string) (c : string) :
  String.eqb c "" || String.eqb c "." = true → step t loc c = Ok l → l = loc.
Proof.
  intros Hc. unfold step. destruct (get t loc) as [[| | |m]|]; try done.
  rewrite Hc. by intros [= <-].
Qed.

Lemma step_special_ok (t : node) (loc : list string) (c : string) (m : gmap string node) :
  String.eqb c "" || String.eqb c "." = true → get t loc = Some (Dir m) →
  step t loc c = Ok loc.
Proof. intros Hc Hm. unfold step. by rewrite Hm, Hc. Qed.

Lemma step_dotdot (t : node) (loc l : list string) :
  step t loc ".." = Ok l → l = removelast loc.
Proof.
  unfold step. destruct (get t loc) as [[| | |m]|]; try done.
  cbn [String.eqb Ascii.eqb orb]. simpl. by intros [= <-].
Qed.

Lemma step_plain (t : node) (loc l : list string) (c : string) :
  String.eqb c "" || String.eqb c "." = false → String.eqb c ".." = false →
  step t loc c = Ok l → l = loc ++ [c].
Proof.
  intros H1 H2. unfold step. destruct (get t loc) as [[| | |m]|]; try done.
  rewrite H1, H2. destruct (m !! c); [|done]. by intros [= <-].
Qed.

(** The loop of [normpath] drops only components that do not change
    where the path leads. *)
Lemma walk_norm (t : node) (L0 : list string) (abs : bool) (comps st : list string)
    (Lcur L : list string) :
  Forall (λ c, String.eqb c "" || String.eqb c "." = false) st →
  walk t L0 (rev st) = Ok Lcur →
  (abs = true → L0 = []) →
  walk t Lcur comps = Ok L →
  walk t L0 (rev (norm_comps abs st comps)) = Ok L.
Proof.
  intros Hst Hw Habs. revert st Lcur Hst Hw.
  induction comps as [|comp rest IH]; intros st Lcur Hst Hw Hwalk.
  - simpl in *. by simplify_eq.
  - cbn [walk] in Hwalk. destruct (step t Lcur comp) as [L1|] eqn:Hstep; [|done].
    cbn [norm_comps].
    destruct (String.eqb comp "" || String.eqb comp ".") eqn:Hsp.
    { apply (step_special _ _ _ _ Hsp) in Hstep as ->. by apply (IH st Lcur). }
    destruct (negb (String.eqb comp "..")
              || negb abs && match st with [] => true | _ :: _ => false end
              || match st with [] => false | top :: _ => String.eqb top ".." end)
      eqn:Hpush.
    { apply (IH (comp :: st) L1); [by constructor| |done].
      cbn [rev]. rewrite walk_app, Hw. by rewrite walk_singleton. }
    apply orb_false_iff in Hpush as [[Hdd Hemp]%orb_false_iff Htop].
    apply negb_false_iff, String.eqb_eq in Hdd as ->.
    apply step_dotdot in Hstep as ->.
    destruct st as [|top st'].
    + cbn [tail]. apply (IH [] (removelast Lcur)); [done| |done].
      destruct abs; [|done]. simpl in Hw. simplify_eq.
      by rewrite (Habs eq_refl).
    + cbn [tail]. apply Forall_cons in Hst as [Htop' Hst'].
      cbn [rev] in Hw. rewrite walk_app in Hw.
      destruct (walk t L0 (rev st')) as [L'|] eqn:Hw'; [|done].
      rewrite walk_singleton in Hw.
      apply (step_plain _ _ _ _ Htop' Htop) in Hw as ->.
      rewrite removelast_last in Hwalk. by apply (IH st' L').
Qed.

Lemma split_slash_parts (s : string) :
  Forall (λ c, no_slash c = true) (split_slash s).
Proof.
  induction s as [|x s IH]; [by repeat constructor|].
  cbn [split_slash]. destruct (is_slash x) eqn:Hx; [by constructor|].
  destruct (split_slash s) as [|h tl]; [by repeat constructor; cbn; rewrite Hx|].
  apply Forall_cons in IH as [Hh Htl]. constructor; [|done].
  cbn. by rewrite Hx, Hh.
Qed.

Lemma norm_comps_Forall (P : string → Prop) (abs : bool) (st comps : list string) :
  Forall P st → Forall P comps → Forall P (norm_comps abs st comps).
Proof.
  revert st. induction comps as [|c comps IH]; intros st Hst Hc; [done|].
  apply Forall_cons in Hc as [Hc Hcs]. cbn [norm_comps].
  destruct (_ || _); [by apply IH|].
  destruct (_ || _ || _); apply IH; try done; [by constructor|].
  destruct st; [done|]. by apply Forall_cons in Hst as [_ ?].
Qed.

Lemma norm_comps_plain (abs : bool) (st comps : list string) :
  Forall (λ c, String.eqb c "" || String.eqb c "." = false) st →
  Forall (λ c, String.eqb c "" || String.eqb c "." = false) (norm_comps abs st comps).
Proof.
  revert st. induction comps as [|c comps IH]; intros st Hst; [done|].
  cbn [norm_comps]. destruct (_ || _) eqn:E; [by apply IH|].
  destruct (_ || _ || _); apply IH; [by constructor|].
  destruct st; [done|]. by apply Forall_cons in Hst as [_ ?].
Qed.

Lemma split_join (comps : list string) :
  comps ≠ [] → Forall (λ c, no_slash c = true) comps →
  split_slash (join_slash comps) = comps.
Proof.
  induction comps as [|c comps IH]; [done|]. intros _ [Hc Hcs]%Forall_cons.
  destruct comps as [|c' comps].
  - by apply split_slash_no_slash.
  - change (join_slash (c :: c' :: comps)) with (c +:+ "/" +:+ join_slash (c' :: comps)).
    rewrite split_slash_app, (split_slash_no_slash c Hc), IH by done. done.
Qed.

Lemma join_slash_nonempty (comps : list string) :
  comps ≠ [] → Forall (λ c, String.eqb c "" || String.eqb c "." = false) comps →
  join_slash comps ≠ "".
Proof.
  destruct comps as [|c comps]; [done|]. intros _ [Hc _]%Forall_cons.
  destruct c; [done|]. by destruct comps.
Qed.

Lemma walk_first_dir (t : node) (L0 L : list string) (comps : list string) :
  comps ≠ [] → walk t L0 comps = Ok L → ∃ m, get t L0 = Some (Dir m).
Proof.
  destruct comps as [|c comps]; [done|]. intros _. cbn [walk].
  destruct (step t L0 c) eqn:E; [|done]. intros _. by eapply step_dir.
Qed.

Lemma walk_empties (t : node) (L0 : list string) (n : nat) (m : gmap string node) :
  get t L0 = Some (Dir m) → walk t L0 (replicate n "") = Ok L0.
Proof.
  intros Hm. induction n as [|n IH]; [done|]. cbn [replicate walk].
  by rewrite (step_special_ok _ _ "" _ eq_refl Hm).
Qed.

Lemma split_slashes_app (n : nat) (s : string) :
  split_slash (slashes n +:+ s) = replicate n "" ++ split_slash s.
Proof.
  induction n as [|n IH]; [done|]. cbn [slashes]. rewrite append_cons.
  cbn [split_slash replicate app]. by rewrite IH.
Qed.

Lemma initial_slashes_cases (p : string) :
  (initial_slashes p = 0 ∧ startswith p "/" = false)
  ∨ ((initial_slashes p = 1 ∨ initial_slashes p = 2) ∧ startswith p "/" = true).
Proof.
  unfold initial_slashes. destruct (startswith p "/"); [|by left].
  right. split; [|done]. destruct (_ && _); eauto.
Qed.

(** [normpath] keeps where a path leads. *)
Lemma walk_normpath (t : node) (L0 L : list string) (p : string) :
  (startswith p "/" = true → L0 = []) →
  walk t L0 (split_slash p) = Ok L →
  walk t L0 (split_slash (normpath p)) = Ok L.
Proof.
  intros Habs Hw.
  destruct (walk_first_dir _ _ _ _ (split_slash_nonempty p) Hw) as [m0 Hm0].
  unfold normpath. destruct (String.eqb p "") eqn:Hp.
  { apply String.eqb_eq in Hp as ->. simpl in Hw.
    rewrite (step_special_ok _ _ "" _ eq_refl Hm0) in Hw. simplify_eq.
    simpl. by rewrite (step_special_ok _ _ "." _ eq_refl Hm0). }
  set (n := initial_slashes p).
  set (st := norm_comps (negb (n =? 0)) [] (split_slash p)).
  assert (Hwst : walk t L0 (rev st) = Ok L).
  { apply (walk_norm t L0 (negb (n =? 0)) (split_slash p) [] L0 L); [done|done| |done].
    intros Hn. apply Habs. unfold n in Hn.
    destruct (initial_slashes_cases p) as [[H0 _]|[_ ?]]; [by rewrite H0 in Hn|done]. }
  assert (Hplain : Forall (λ c, String.eqb c "" || String.eqb c "." = false) (rev st))
    by (apply Forall_rev, norm_comps_plain; constructor).
  assert (Hns : Forall (λ c, no_slash c = true) (rev st)).
  { apply Forall_rev, norm_comps_Forall; [constructor|apply split_slash_parts]. }
  assert (Hsplit : split_slash (slashes n +:+ join_slash (rev st))
                   = replicate n "" ++ match rev st with [] => [""] | l => l end).
  { rewrite split_slashes_app. f_equal.
    destruct (rev st) as [|c l] eqn:E; [done|]. by apply split_join. }
  assert (Hrest : walk t L0 (match rev st with [] => [""] | l => l end) = Ok L).
  { destruct (rev st) as [|c l] eqn:E; [|done]. simpl in Hwst. simplify_eq.
    simpl. by rewrite (step_special_ok _ _ "" _ eq_refl Hm0). }
  destruct (String.eqb (slashes n +:+ join_slash (rev st)) "") eqn:Hempty.
  - apply String.eqb_eq in Hempty. apply app_eq_nil in Hempty as Hn.
    rewrite Hn, append_nil_l in Hempty.
    destruct (rev st) as [|c l] eqn:E.
    + simpl in Hwst. simplify_eq. simpl.
      by rewrite (step_special_ok _ _ "." _ eq_refl Hm0).
    + exfalso. by apply (join_slash_nonempty (c :: l)).
  - rewrite Hsplit, walk_app, (walk_empties _ _ _ _ Hm0). done.
Qed.

Lemma startswith_normpath (p : string) :
  startswith (normpath p) "/" = startswith p "/".
Proof.
  unfold normpath. destruct (String.eqb p "") eqn:Hp.
  { by apply String.eqb_eq in Hp as ->. }
  set (n := initial_slashes p). set (st := norm_comps _ _ _).
  assert (Hplain : Forall (λ c, String.eqb c "" || String.eqb c "." = false) (rev st))
    by (apply Forall_rev, norm_comps_plain; constructor).
  assert (Hns : Forall (λ c, no_slash c = true) (rev st)).
  { apply Forall_rev, norm_comps_Forall; [constructor|apply split_slash_parts]. }
  destruct (initial_slashes_cases p) as [[H0 ->]|[Hn ->]]; fold n in H0 || fold n in Hn.
  - rewrite H0, append_nil_l.
    destruct (rev st) as [|c l] eqn:E; [done|].
    apply Forall_cons in Hplain as [Hc _]. apply Forall_cons in Hns as [Hcs _].
    assert (join_slash (c :: l) ≠ "") as Hne.
    { apply join_slash_nonempty; [done|]. rewrite <- E.
      apply Forall_rev, norm_comps_plain; constructor. }
    apply String.eqb_neq in Hne as ->.
    destruct c as [|x c]; [done|]. cbn in Hcs.
    apply andb_true_iff in Hcs as [Hx _]. apply negb_true_iff in Hx.
    rewrite startswith_slash. destruct l; [done|].
    change (join_slash (String x c :: s :: l))
      with (String x c +:+ "/" +:+ join_slash (s :: l)).
    by rewrite append_cons.
  - assert (∃ k, n = S k) as [k ->] by (destruct Hn as [->| ->]; eauto).
    cbn [slashes]. rewrite append_cons. cbn [String.eqb].
    by rewrite startswith_slash.
Qed.

Lemma join_temp_repo_cases (b : string) :
  join "temp_repo" b = if startswith b "/" then b else "temp_repo" +:+ "/" +:+ b.
Proof. unfold join. by destruct (startswith b "/"). Qed.

(** The path the prune stage checks leads where the path given to
    [main] leads. *)
Lemma resolve_join_normpath cwd (t : node) (sp : string) (L : list string) :
  resolve cwd t (join "temp_repo" sp) = Ok L →
  resolve cwd t (join "temp_repo" (normpath sp)) = Ok L.
Proof.
  rewrite !join_temp_repo_cases, startswith_normpath.
  destruct (startswith sp "/") eqn:Hs.
  - intros Hr. pose proof (resolve_nonempty _ _ _ _ Hr) as Hne.
    rewrite resolve_unfold in Hr by done. unfold start in Hr. rewrite Hs in Hr.
    rewrite resolve_unfold.
    2:{ intros E. pose proof (startswith_normpath sp) as H.
        rewrite E, Hs in H. done. }
    unfold start. rewrite startswith_normpath, Hs.
    by apply walk_normpath.
  - intros Hr. rewrite resolve_unfold in Hr by done.
    rewrite resolve_unfold by done.
    rewrite split_slash_app, walk_app in Hr. rewrite split_slash_app, walk_app.
    change (start cwd ("temp_repo" +:+ "/" +:+ normpath sp))
      with (start cwd ("temp_repo" +:+ "/" +:+ sp)).
    destruct (walk t _ (split_slash "temp_repo")) as [L1|]; [|done].
    apply walk_normpath; [|done]. by rewrite Hs.
Qed.

Lemma exists_join_normpath cwd (t x : node) (sp : string) :
  stat cwd t (join "temp_repo" sp) = Ok x →
  exists_ cwd t (join "temp_repo" (normpath sp)) = true.
Proof.
  unfold exists_, stat.
  destruct (resolve cwd t (join "temp_repo" sp)) as [L|] eqn:Hr; [|done].
  rewrite (resolve_join_normpath _ _ _ _ Hr).
  by destruct (get t L).
Qed.

End NormFacts.

(** ** The directory of the archive *)

Module ArchiveDirFacts.
Import PyStr PosixPath FS Py Task2 StrFacts TreeFacts ResolveFacts NameFacts MainFacts NormFacts.

Lemma rpartition_spec (s : string) :
  let '(h, l) := rpartition_slash s in
  s = h +:+ l ∧ no_slash l = true ∧ (h = "" ∨ endswith h "/" = true).
Proof.
  induction s as [|x s IH]; [by split_and!; [..|left]|].
  rewrite rpartition_cons. destruct (rpartition_slash s) as [h l].
  destruct IH as (-> & Hl & Hh).
  destruct (String.eqb h "") eqn:E.
  - apply String.eqb_eq in E as ->. rewrite append_nil_l.
    destruct (is_slash x) eqn:Hx.
    + apply Ascii.eqb_eq in Hx as ->. split_and!; [done..|by right].
    + split_and!; [done| |by left]. cbn. by rewrite Hx, Hl.
  - split_and!; [done..|]. right. destruct Hh as [->|Hh]; [done|].
    apply endswith_spec in Hh as [pre ->]. apply endswith_spec.
    by exists (String x pre).
Qed.

Lemma rstrip_spec (h : string) :
  ∃ j, h = rstrip_slash h +:+ slashes j
       ∧ endswith (rstrip_slash h) "/" = false
       ∧ (rstrip_slash h = "" → all_slash h = true).
Proof.
  induction h as [|x h IH].
  - exists 0. by split_and!.
  - destruct IH as (j & Hj & Hend & Hall). cbn [rstrip_slash all_slash].
    destruct (is_slash x && String.eqb (rstrip_slash h) "") eqn:E.
    + apply andb_true_iff in E as [Hx Hr]. apply String.eqb_eq in Hr.
      exists (S j). rewrite Hr in Hj. rewrite append_nil_l in *.
      apply Ascii.eqb_eq in Hx as ->. split_and!; [by rewrite Hj at 1|done|].
      intros _. by rewrite (Hall Hr).
    + exists j. split_and!.
      * rewrite append_cons. by rewrite <- Hj.
      * rewrite endswith_unfold.
        destruct (String.eqb (String x (rstrip_slash h)) "/") eqn:E'; [|done].
        apply String.eqb_eq in E'. injection E' as -> Hr.
        by rewrite Hr in E.
      * done.
Qed.

Lemma start_slash cwd (a x y : string) :
  start cwd (a +:+ "/" +:+ x) = start cwd (a +:+ "/" +:+ y).
Proof.
  rewrite <- !append_assoc.
  rewrite !(start_app cwd (a +:+ "/")) by (by destruct a). done.
Qed.

(** A path that leads somewhere leads through a directory at each
    slash. *)
Lemma walk_prefix_dir cwd (t : node) (a b : string) (L : list string) :
  resolve cwd t (a +:+ "/" +:+ b) = Ok L →
  ∃ loc m, walk t (start cwd (a +:+ "/" +:+ b)) (split_slash a) = Ok loc
           ∧ get t loc = Some (Dir m).
Proof.
  intros Hr. rewrite resolve_unfold in Hr by (by destruct a).
  rewrite split_slash_app, walk_app in Hr.
  destruct (walk t _ (split_slash a)) as [loc|]; [|done].
  destruct (walk_first_dir _ _ _ _ (split_slash_nonempty b) Hr) as [m Hm]. eauto.
Qed.

Lemma resolve_parent_app cwd (t : node) (a nm : string) (loc : list string)
    (m : gmap string node) :
  valid_name nm = true →
  walk t (start cwd (a +:+ "/" +:+ nm)) (split_slash a) = Ok loc →
  get t loc = Some (Dir m) →
  resolve_parent cwd t (a +:+ "/" +:+ nm) = Ok (loc, nm).
Proof.
  intros Hnm Hw Hm. unfold resolve_parent.
  assert (String.eqb (a +:+ "/" +:+ nm) "" = false) as ->
    by (apply String.eqb_neq; by destruct a).
  rewrite split_slash_app, (split_slash_no_slash nm) by by apply valid_name_no_slash.
  rewrite removelast_last, last_last, Hw, Hm.
  by destruct (valid_name_not_special _ Hnm) as [-> ->].
Qed.

(** The directory [create_archive] puts the archive in exists
    whenever the directory to archive does. *)
Lemma archive_parent_resolves cwd (t : node) (sd nm : string) (m : gmap string node) :
  stat cwd t sd = Ok (Dir m) → valid_name nm = true →
  ∃ loc, resolve_parent cwd t (join (dirname sd) nm) = Ok (loc, nm).
Proof.
  intros Hst Hnm. unfold stat in Hst.
  destruct (resolve cwd t sd) as [L|] eqn:Hr; [|done]. clear Hst.
  pose proof (resolve_nonempty _ _ _ _ Hr) as Hne.
  pose proof (rpartition_spec sd) as Hp. unfold dirname.
  destruct (rpartition_slash sd) as [h l]. cbn [fst].
  destruct Hp as (Hsd & Hl & Hh).
  destruct Hh as [->|Hh].
  - (* no slash in the path: the archive goes to the current directory *)
    cbn [String.eqb negb andb]. rewrite append_nil_l in Hsd. subst l.
    assert (join "" nm = nm) as ->.
    { unfold join. by rewrite (valid_name_startswith _ Hnm). }
    rewrite resolve_unfold in Hr by done.
    destruct (walk_first_dir _ _ _ _ (split_slash_nonempty sd) Hr) as [mc Hmc].
    unfold start in Hmc.
    assert (startswith sd "/" = false) as Hrel.
    { rewrite startswith_slash. destruct sd as [|x sd]; [done|]. cbn in Hl.
      apply andb_true_iff in Hl as [Hx _]. by apply negb_true_iff in Hx. }
    rewrite Hrel in Hmc. exists cwd. by apply (resolve_parent_name cwd t nm mc).
  - apply endswith_spec in Hh as Hpre. destruct Hpre as [pre Hpre].
    assert (h ≠ "") as Hhne by (intros ->; done).
    apply String.eqb_neq in Hhne as Hhne'. rewrite Hhne'. cbn [negb andb].
    destruct (all_slash h) eqn:Hall; cbn [negb].
    + (* the directory is all slashes *)
      assert (join h nm = pre +:+ "/" +:+ nm) as ->.
      { unfold join. rewrite (valid_name_startswith _ Hnm), Hh, orb_true_r.
        by rewrite Hpre, append_assoc. }
      subst sd h. rewrite append_assoc in Hr.
      destruct (walk_prefix_dir _ _ _ _ _ Hr) as (loc & m' & Hw & Hm').
      rewrite (start_slash cwd pre l nm) in Hw.
      exists loc. by apply (resolve_parent_app _ _ _ _ _ m').
    + (* the directory with its trailing slashes stripped *)
      destruct (rstrip_spec h) as (j & Hj & Hend & Hempty).
      set (d := rstrip_slash h) in *.
      assert (d ≠ "") as Hd by (intros E; by rewrite (Hempty E) in Hall).
      assert (∃ j', j = S j') as [j' ->].
      { destruct j as [|j']; [|eauto]. exfalso.
        cbn [slashes] in Hj. rewrite append_nil_r in Hj. rewrite <- Hj in Hend.
        by rewrite Hh in Hend. }
      assert (join d nm = d +:+ "/" +:+ nm) as ->.
      { unfold join. rewrite (valid_name_startswith _ Hnm), Hend.
        apply String.eqb_neq in Hd as ->. done. }
      assert (sd = d +:+ "/" +:+ (slashes j' +:+ l)) as Hsd'.
      { rewrite Hsd, Hj. cbn [slashes]. by rewrite !append_assoc. }
      rewrite Hsd' in Hr.
      destruct (walk_prefix_dir _ _ _ _ _ Hr) as (loc & m' & Hw & Hm').
      rewrite (start_slash cwd d _ nm) in Hw.
      exists loc. by apply (resolve_parent_app _ _ _ _ _ m').
Qed.

Lemma basename_no_slash (s : string) : no_slash (basename s) = true.
Proof.
  unfold basename. pose proof (rpartition_spec s) as H.
  destruct (rpartition_slash s) as [h l]. by destruct H as (_ & ? & _).
Qed.

Lemma length_append (a b : string) :
  String.length (a +:+ b) = String.length a + String.length b.
Proof. induction a as [|x a IH]; [done|]. rewrite append_cons. cbn. by rewrite IH. Qed.

Lemma zip_name_valid (x : string) :
  no_slash x = true → valid_name (x +:+ ".zip") = true.
Proof.
  intros Hx. unfold valid_name. rewrite no_slash_app, Hx.
  assert (∀ y, String.length y < 4 → String.eqb (x +:+ ".zip") y = false) as Hshort.
  { intros y Hy. apply String.eqb_neq. intros E.
    apply (f_equal String.length) in E. rewrite length_append in E.
    cbn in E. lia. }
  rewrite !Hshort by (cbn; lia). done.
Qed.

(** [shutil.make_archive], as [create_archive] calls it on a directory
    that exists, finds the directory of the archive in place. *)
Lemma create_archive_directory cwd now (t : node) (sd : string) (m : gmap string node) :
  stat cwd t sd = Ok (Dir m) → (0 ≤ year now)%Z →
  ∃ loc,
    resolve_parent cwd t
      (join (dirname sd) (basename (normpath sd) +:+ strftime_Ymd now) +:+ ".zip")
    = Ok (loc, basename (normpath sd) +:+ strftime_Ymd now +:+ ".zip").
Proof.
  intros Hst Hy.
  assert (basename (normpath sd) +:+ strftime_Ymd now ≠ "") as Hne.
  { intros E. apply app_eq_nil in E as E'. rewrite E', append_nil_l in E.
    unfold strftime_Ymd, two_digits in E. apply app_eq_nil in E as E2.
    rewrite E2, append_nil_l in E. done. }
  rewrite (join_app_r _ _ _ Hne), append_assoc.
  apply (archive_parent_resolves _ _ _ _ _ Hst).
  rewrite <- append_assoc. apply zip_name_valid.
  by rewrite no_slash_app, basename_no_slash, no_slash_strftime.
Qed.

End ArchiveDirFacts.

(** * The claims *)

Import PyStr PosixPath FS Py Task2.

Ltac names_ok_tac :=
  unfold names_ok;
  repeat first
    [ apply map_Forall_empty
    | apply map_Forall_singleton; reflexivity
    | apply map_Forall_insert_2; [reflexivity|] ].





(** C7.  Whatever the prune stage does, an entry of the root that is
    not a directory is still there afterwards, unchanged: the stage
    removes directories only. *)
Theorem root_files_untouched cwd (root_dir keep_path : string) (t : node)
    (lg : list (level * message)) (r : res bool) (s' : state)
    (m : gmap string node) (name : string) (n : node) :
  valid_name root_dir = true →
  get t (cwd ++ [root_dir]) = Some (Dir m) →
  names_ok m →
  m !! name = Some n →
  is_dir n = false →
  clean_directory cwd root_dir keep_path (State t lg) = (r, s') →
  get (fs s') ((cwd ++ [root_dir]) ++ [name]) = Some n.
Proof.
  intros Hr Hm Hok Hn Hfile Hrun.
  pose proof (PruneFacts.clean_directory_spec cwd root_dir keep_path Hr t lg m Hm Hok) as H.
  destruct (exists_ cwd t _).
  - destruct H as (added & _ & _ & H). rewrite H in Hrun. simplify_eq. cbn [fs].
    rewrite (TreeFacts.get_snoc _ _ _ (pruned root_dir keep_path m)).
    + apply map_lookup_filter_Some. split; [done|].
      unfold survives. cbn. rewrite Hfile. apply orb_true_r.
    + apply PruneFacts.get_update_here; [apply PruneFacts.snoc_not_nil | by rewrite Hm].
  - rewrite H in Hrun. simplify_eq. cbn [fs].
    by rewrite (TreeFacts.get_snoc _ _ _ _ Hm).
Qed.

Lemma root_files_untouched_witness :
  valid_name "temp_repo" = true ∧
  get (fs Sample.cloned) (Sample.cwd ++ ["temp_repo"]) = Some (Dir Sample.repo) ∧
  names_ok Sample.repo ∧
  Sample.repo !! "README" = Some (File "readme") ∧
  is_dir (File "readme") = false ∧
  clean_directory Sample.cwd "temp_repo" "a/b/c"
    (State (fs Sample.cloned) (log Sample.cloned)) = Sample.pruned_deep_once ∧
  get (fs (snd Sample.pruned_deep_once)) ((Sample.cwd ++ ["temp_repo"]) ++ ["README"])
    = Some (File "readme").
Proof.
  assert (H1 : valid_name "temp_repo" = true) by reflexivity.
  assert (H2 : get (fs Sample.cloned) (Sample.cwd ++ ["temp_repo"])
               = Some (Dir Sample.repo)) by (vm_compute; reflexivity).
  assert (H3 : names_ok Sample.repo) by (unfold Sample.repo; names_ok_tac).
  assert (H4 : Sample.repo !! "README" = Some (File "readme")) by (vm_compute; reflexivity).
  assert (H5 : is_dir (File "readme") = false) by reflexivity.
  assert (H6 : clean_directory Sample.cwd "temp_repo" "a/b/c"
                 (State (fs Sample.cloned) (log Sample.cloned))
               = (fst Sample.pruned_deep_once, snd Sample.pruned_deep_once))
    by (vm_compute; reflexivity).
  split_and!; [exact H1 | exact H2 | exact H3 | exact H4 | exact H5
              | vm_compute; reflexivity |].
  exact (root_files_untouched _ _ _ _ _ _ _ _ _ _ H1 H2 H3 H4 H5 H6).
Defined.

(** C2, at an input where the code departs from it.  The repository
    has the directory [a/b/c]; the prune pass that is to keep [a/b/c]
    reports success and has deleted [a], the directory of the root
    that leads to the kept path, and the kept path with it. *)
Theorem deep_keep_path_ancestor_is_deleted :
  exists_ Sample.cwd (fs Sample.cloned) "temp_repo/a/b/c" = true ∧
  fst Sample.pruned_deep_once = Ok true ∧
  get (fs (snd Sample.pruned_deep_once)) ["home"; "temp_repo"; "a"] = None ∧
  exists_ Sample.cwd (fs (snd Sample.pruned_deep_once)) "temp_repo/a/b/c" = false.
Proof. vm_compute. done. Qed.

(** C6, at an input where the code departs from it.  The first prune
    pass that is to keep [a/b/c] reports success; the second pass with
    the same kept path fails, because the first one deleted the path. *)
Theorem second_prune_pass_fails :
  fst Sample.pruned_deep_once = Ok true ∧
  fst Sample.pruned_deep_twice = Ok false ∧
  last (log (snd Sample.pruned_deep_twice)) = Some (ERROR, KeepPathMissing "a/b/c").
Proof. vm_compute. done. Qed.







(** C9.  When the path to keep names a regular file of the clone, the
    prune stage succeeds, the stamp stage fails, and [main] returns
    after it with the file system as it was at the start but for
    [temp_repo], which is not there: the working directory is removed
    and no archive was produced. *)
Theorem keep_path_file_fails_at_stamp cwd git now (url sp ver : string)
    (t0 : node) (lg0 : list (level * message)) (mc tree : gmap string node)
    (n : node) (r : res return_point) (s' : state) :
  get t0 cwd = Some (Dir mc) →
  (∀ x, mc !! "temp_repo" = Some x → is_dir x = true) →
  git url = Some tree →
  names_ok tree →
  stat cwd (update (cwd ++ ["temp_repo"]) (λ _, Some (Dir tree)) t0)
    (join "temp_repo" sp) = Ok n →
  is_dir n = false →
  main cwd git now url sp ver (State t0 lg0) = (r, s') →
  r = Ok ReturnVersionFailed
  ∧ (∃ added e, log s' = lg0 ++ added ∧ (INFO, CleanDone) ∈ added
                ∧ last added = Some (ERROR, VersionError e))
  ∧ fs s' = update (cwd ++ ["temp_repo"]) (λ _, None) t0
  ∧ get (fs s') (cwd ++ ["temp_repo"]) = None.
Proof.
  intros Hcwd Hstale Hgit Hok Hstat Hfile Hrun.
  assert (Hgit' : ∀ tr, git url = Some tr → names_ok tr)
    by (intros tr Htr; by simplify_eq).
  assert (Hgone : get (update (cwd ++ ["temp_repo"]) (λ _, None) t0)
                    (cwd ++ ["temp_repo"]) = None)
    by by rewrite (TreeFacts.get_update_same _ _ _ _ _ Hcwd).
  pose proof (NormFacts.exists_join_normpath _ _ _ _ Hstat) as Hnorm.
  assert (Hnodir : ∀ m',
    listing cwd (update (cwd ++ ["temp_repo"])
                   (λ _, Some (Dir (pruned "temp_repo" sp tree))) t0)
      (join "temp_repo" sp) ≠ Ok m').
  { intros m' Hl. unfold listing in Hl.
    destruct (stat cwd (update (cwd ++ ["temp_repo"])
                          (λ _, Some (Dir (pruned "temp_repo" sp tree))) t0)
                (join "temp_repo" sp)) as [[| | |m'']|] eqn:Hst; try done.
    assert (Hsub : sub (update (cwd ++ ["temp_repo"])
                          (λ _, Some (Dir (pruned "temp_repo" sp tree))) t0)
                       (update (cwd ++ ["temp_repo"]) (λ _, Some (Dir tree)) t0)).
    { rewrite <- (TreeFacts.update_update_same t0 (Dir tree)).
      eapply SubFacts.sub_update; [|apply SubFacts.pruned_subseteq].
      by rewrite (TreeFacts.get_update_same _ _ _ _ _ Hcwd). }
    destruct (SubFacts.sub_stat cwd _ _ _ _ Hsub Hst) as (x & Hx & Hsubx).
    rewrite Hstat in Hx. simplify_eq.
    apply SubFacts.sub_dir_inv in Hsubx as (m & -> & _). done. }
  destruct (MainFacts.main_cases cwd git now url sp ver t0 lg0 mc Hcwd Hgit' r s' Hrun)
    as [(x & Hx & Hxfile & _)
       |[(Hnone & _)
       |[(tr & Htr & Hex & _)
       |[(tr & added & e & Htr & Hex & _ & Hdone & -> & ->)
       |[(tr & added & e & t5 & Htr & Hex & Hls & _)
        |(tr & added & path & Htr & Hex & Hls & _)]]]]].
  - by rewrite (Hstale _ Hx) in Hxfile.
  - by rewrite Hgit in Hnone.
  - simplify_eq. by rewrite Hnorm in Hex.
  - split; [done|]. split; [|done].
    exists (added ++ [(ERROR, VersionError e)]), e. split_and!; [done| |].
    + apply elem_of_app. by left.
    + apply last_snoc.
  - exfalso. simplify_eq. unfold listdir in Hls.
    destruct (listing cwd _ (join "temp_repo" sp)) as [m'|] eqn:Hl; [|done].
    by apply (Hnodir m').
  - exfalso. simplify_eq. unfold listdir in Hls.
    destruct (listing cwd _ (join "temp_repo" sp)) as [m'|] eqn:Hl; [|done].
    by apply (Hnodir m').
Qed.

Lemma keep_path_file_fails_at_stamp_witness :
  get Sample.disk Sample.cwd = Some (Dir ∅) ∧
  (∀ x, (∅ : gmap string node) !! "temp_repo" = Some x → is_dir x = true) ∧
  Sample.git Sample.url = Some Sample.repo ∧
  names_ok Sample.repo ∧
  stat Sample.cwd
    (update (Sample.cwd ++ ["temp_repo"]) (λ _, Some (Dir Sample.repo)) Sample.disk)
    (join "temp_repo" "README") = Ok (File "readme") ∧
  is_dir (File "readme") = false ∧
  main Sample.cwd Sample.git Sample.today Sample.url "README" "1.0"
    (State Sample.disk []) = (fst Sample.run_readme, snd Sample.run_readme) ∧
  fst Sample.run_readme = Ok ReturnVersionFailed
  ∧ (∃ added e, log (snd Sample.run_readme) = [] ++ added
                ∧ (INFO, CleanDone) ∈ added
                ∧ last added = Some (ERROR, VersionError e))
  ∧ fs (snd Sample.run_readme)
    = update (Sample.cwd ++ ["temp_repo"]) (λ _, None) Sample.disk
  ∧ get (fs (snd Sample.run_readme)) (Sample.cwd ++ ["temp_repo"]) = None.
Proof.
  assert (H1 : get Sample.disk Sample.cwd = Some (Dir ∅)) by (vm_compute; reflexivity).
  assert (H2 : ∀ x, (∅ : gmap string node) !! "temp_repo" = Some x → is_dir x = true)
    by (intros x H; by rewrite lookup_empty in H).
  assert (H3 : Sample.git Sample.url = Some Sample.repo) by reflexivity.
  assert (H4 : names_ok Sample.repo) by (unfold Sample.repo; names_ok_tac).
  assert (H5 : stat Sample.cwd
                 (update (Sample.cwd ++ ["temp_repo"])
                    (λ _, Some (Dir Sample.repo)) Sample.disk)
                 (join "temp_repo" "README") = Ok (File "readme"))
    by (vm_compute; reflexivity).
  assert (H6 : is_dir (File "readme") = false) by reflexivity.
  assert (H7 : main Sample.cwd Sample.git Sample.today Sample.url "README" "1.0"
                 (State Sample.disk []) = (fst Sample.run_readme, snd Sample.run_readme))
    by (vm_compute; reflexivity).
  exact (conj H1 (conj H2 (conj H3 (conj H4 (conj H5 (conj H6 (conj H7
           (keep_path_file_fails_at_stamp _ _ _ _ _ _ _ _ _ _ _ _ _
              H1 H2 H3 H4 H5 H6 H7)))))))).
Defined.

(** C1, at an input where the code departs from it.  The directory to
    package is given as [app/].  The run succeeds and delivers
    [app20240307.zip], but [create_archive] has put the archive file
    into the directory it archives ([os.path.dirname] of a path with a
    trailing slash is the directory itself), so the archive has itself
    as a member: its members are not the entries of [app] plus the
    manifest. *)
Theorem archive_of_slash_path_contains_itself :
  fst Sample.run_app_slash = Ok ReturnEnd ∧
  ∃ members,
    get (fs (snd Sample.run_app_slash)) ["home"; "app20240307.zip"]
      = Some (ZipFile members) ∧
    members !! "app20240307.zip" = Some (ZipFile ∅) ∧
    ∀ files,
      members ≠ <["version.json" := JsonFile (version_data "1.0" files)]>
                  Sample.app_entries.
Proof.
  split; [vm_compute; reflexivity|].
  eexists. split; [vm_compute; reflexivity|].
  split; [vm_compute; reflexivity|].
  intros files E.
  apply (f_equal (λ m : gmap string node, m !! "app20240307.zip")) in E.
  rewrite lookup_insert_ne in E by done. vm_compute in E. discriminate.
Qed.

(** The same directory given as [app]: the archive then has the
    entries of [app] and the manifest, and nothing else. *)
Example archive_of_plain_path :
  fst Sample.run_app = Ok ReturnEnd ∧
  get (fs (snd Sample.run_app)) ["home"; "app20240307.zip"]
    = Some (ZipFile (<["version.json" :=
                         JsonFile (version_data "1.0" ["main.py"; ".py"; "tool.js"])]>
                       Sample.app_entries)).
Proof. split; vm_compute; reflexivity. Qed.

(** * Further properties *)

(** ** What an update leaves alone *)

Module FrameFacts.
Import PyStr PosixPath FS Py Task2 StrFacts TreeFacts ResolveFacts StampFacts PruneFacts NameFacts
  SubFacts MainFacts NormFacts ArchiveDirFacts.

(** An update leaves alone what is neither above nor below its place. *)
Lemma get_update_frame (t : node) (P L : list string) f :
  ¬ P `prefix_of` L → ¬ L `prefix_of` P → get (update P f t) L = get t L.
Proof.
  revert t L. induction P as [|c P IH]; intros t L HPL HLP; [done|].
  destruct t as [| | |m0]; [done..|].
  destruct L as [|c2 L]; [by destruct HLP; apply prefix_nil|].
  destruct (decide (c = c2)) as [<-|Hne].
  - destruct P as [|c' P].
    { destruct HPL. apply prefix_cons, prefix_nil. }
    rewrite update_cons_cons. cbn [get]. rewrite lookup_alter_eq.
    destruct (m0 !! c) as [ch|]; [|done]. cbn.
    apply IH; intros H; [apply HPL|apply HLP]; by apply prefix_cons.
  - destruct P as [|c' P].
    + cbn [update get]. by rewrite lookup_partial_alter_ne.
    + rewrite update_cons_cons. cbn [get]. by rewrite lookup_alter_ne.
Qed.

Lemma extends_refl (t : node) : extends t t.
Proof. intros loc x H. eauto. Qed.

Lemma extends_trans (t1 t2 t3 : node) :
  extends t1 t2 → extends t2 t3 → extends t1 t3.
Proof.
  intros H12 H23 loc x H. destruct (H12 _ _ H) as (x2 & H2 & Hd2).
  destruct (H23 _ _ H2) as (x3 & H3 & Hd3). eauto.
Qed.







End FrameFacts.

(** ** The run of the package stage *)

Module ArchiveFacts.
Import PyStr PosixPath FS Py Task2 StrFacts TreeFacts ResolveFacts StampFacts PruneFacts NameFacts
  SubFacts MainFacts NormFacts ArchiveDirFacts FrameFacts.











End ArchiveFacts.

(** ** Paths of plain names *)

Module PlainPathFacts.
Import PyStr PosixPath FS Py Task2 StrFacts TreeFacts ResolveFacts StampFacts PruneFacts NameFacts
  SubFacts MainFacts NormFacts ArchiveDirFacts FrameFacts.

Lemma valid_name_nonempty (c : string) : valid_name c = true → c ≠ "".
Proof. by intros H ->. Qed.

Lemma valid_name_plain (c : string) :
  valid_name c = true → String.eqb c "" || String.eqb c "." = false.
Proof. intros H. by destruct (valid_name_not_special _ H). Qed.

Lemma endswith_slash_no_slash (s : string) :
  no_slash s = true → endswith s "/" = false.
Proof.
  induction s as [|c s IH]; [done|]. cbn [no_slash].
  intros [Hc Hs]%andb_prop. rewrite endswith_unfold, (IH Hs).
  destruct (String.eqb (String c s) "/") eqn:E; [|done].
  apply String.eqb_eq in E. injection E as -> ->. done.
Qed.

(** [os.path.join] of a name and a relative path. *)
Lemma join_name (r x : string) :
  valid_name r = true → startswith x "/" = false → join r x = r +:+ "/" +:+ x.
Proof.
  intros Hr Hx. unfold join. rewrite Hx.
  rewrite (endswith_slash_no_slash _ (valid_name_no_slash _ Hr)).
  destruct (String.eqb r "") eqn:E; [|done].
  apply String.eqb_eq in E. by destruct (valid_name_nonempty _ Hr).
Qed.

Lemma join_slash_cons (c : string) (cs : list string) :
  cs ≠ [] → join_slash (c :: cs) = c +:+ "/" +:+ join_slash cs.
Proof. by destruct cs. Qed.

Lemma startswith_join_slash (comps : list string) :
  Forall (λ c, valid_name c = true) comps →
  startswith (join_slash comps) "/" = false.
Proof.
  destruct 1 as [|c cs Hc _]; [done|].
  destruct cs as [|c' cs].
  - by apply valid_name_startswith.
  - rewrite join_slash_cons by done.
    rewrite startswith_app by by apply valid_name_nonempty.
    by apply valid_name_startswith.
Qed.

Lemma join_slash_names_nonempty (comps : list string) :
  comps ≠ [] → Forall (λ c, valid_name c = true) comps → join_slash comps ≠ "".
Proof.
  intros Hne Hall. apply join_slash_nonempty; [done|].
  eapply Forall_impl; [exact Hall|]. apply valid_name_plain.
Qed.

Lemma norm_comps_names (abs : bool) (st comps : list string) :
  Forall (λ c, valid_name c = true) comps →
  norm_comps abs st comps = rev comps ++ st.
Proof.
  intros Hall. revert st. induction Hall as [|c cs Hc _ IH]; intros st; [done|].
  cbn [norm_comps]. rewrite (valid_name_plain _ Hc).
  destruct (valid_name_not_special _ Hc) as [_ ->]. cbn [negb orb].
  rewrite IH. cbn [rev]. by rewrite <- app_assoc.
Qed.

(** [normpath] leaves a path of plain names as it is. *)
Lemma normpath_names (comps : list string) :
  comps ≠ [] → Forall (λ c, valid_name c = true) comps →
  normpath (join_slash comps) = join_slash comps.
Proof.
  intros Hne Hall. unfold normpath.
  pose proof (join_slash_names_nonempty _ Hne Hall) as Hp.
  apply String.eqb_neq in Hp as Hp'. rewrite Hp'.
  unfold initial_slashes. rewrite (startswith_join_slash _ Hall).
  cbn [Nat.eqb negb slashes]. rewrite append_nil_l.
  rewrite split_join; [|done|].
  2:{ eapply Forall_impl; [exact Hall|]. apply valid_name_no_slash. }
  rewrite (norm_comps_names _ _ _ Hall), app_nil_r, rev_involutive.
  by rewrite Hp'.
Qed.

(** Walking along names that exist. *)
Lemma walk_names (t x : node) (L comps : list string) :
  Forall (λ c, valid_name c = true) comps →
  get t (L ++ comps) = Some x → walk t L comps = Ok (L ++ comps).
Proof.
  intros Hall. revert L. induction Hall as [|c cs Hc _ IH]; intros L Hg.
  { by rewrite app_nil_r. }
  cbn [walk].
  assert (Hg' : get t ((L ++ [c]) ++ cs) = Some x) by by rewrite <- app_assoc.
  rewrite get_app in Hg'.
  destruct (get t (L ++ [c])) as [y|] eqn:Hy; [|done].
  apply get_snoc_Some in Hy as Hy'. destruct Hy' as (m & Hm & Hc').
  rewrite (step_name _ _ _ _ Hm Hc), Hc'.
  rewrite (IH (L ++ [c])); by rewrite <- app_assoc.
Qed.

Lemma stat_names cwd (t x : node) (comps : list string) :
  comps ≠ [] → Forall (λ c, valid_name c = true) comps →
  get t (cwd ++ comps) = Some x →
  resolve cwd t (join_slash comps) = Ok (cwd ++ comps)
  ∧ stat cwd t (join_slash comps) = Ok x.
Proof.
  intros Hne Hall Hg.
  assert (Hres : resolve cwd t (join_slash comps) = Ok (cwd ++ comps)).
  { rewrite resolve_unfold by by apply join_slash_names_nonempty.
    unfold start. rewrite (startswith_join_slash _ Hall).
    rewrite split_join; [|done|].
    2:{ eapply Forall_impl; [exact Hall|]. apply valid_name_no_slash. }
    by apply (walk_names _ x). }
  split; [done|]. unfold stat. by rewrite Hres, Hg.
Qed.

Lemma rstrip_snoc (x : string) :
  endswith x "/" = false → rstrip_slash (x +:+ "/") = x.
Proof.
  induction x as [|c x IH]; [done|].
  rewrite endswith_unfold. destruct (String.eqb (String c x) "/") eqn:E; [done|].
  intros Hx. rewrite append_cons. cbn [rstrip_slash]. rewrite (IH Hx).
  destruct (is_slash c) eqn:Hc; [|done]. destruct x; [|done].
  unfold is_slash in Hc. apply Ascii.eqb_eq in Hc. by subst.
Qed.

Lemma all_slash_name (r y : string) :
  valid_name r = true → all_slash (r +:+ y) = false.
Proof.
  intros Hr. destruct r as [|c r]; [done|]. rewrite append_cons. cbn [all_slash].
  apply valid_name_no_slash in Hr. cbn [no_slash] in Hr.
  apply andb_prop in Hr as [Hc _]. by destruct (is_slash c).
Qed.

(** [os.path.dirname] of a path of plain names. *)
Lemma dirname_names (r a b : string) :
  valid_name r = true → valid_name a = true → valid_name b = true →
  dirname (r +:+ "/" +:+ a +:+ "/" +:+ b) = r +:+ "/" +:+ a.
Proof.
  intros Hr Ha Hb. unfold dirname.
  assert (E : r +:+ "/" +:+ a +:+ "/" +:+ b = (r +:+ "/" +:+ a) +:+ "/" +:+ b)
    by by rewrite !append_assoc.
  rewrite E, (rpartition_app _ _ (valid_name_no_slash _ Hb)). cbn [fst].
  rewrite !append_assoc, (all_slash_name _ _ Hr).
  destruct (String.eqb _ "") eqn:E0.
  { apply String.eqb_eq, app_eq_nil in E0. by destruct (valid_name_nonempty _ Hr). }
  cbn [negb andb].
  replace (r +:+ "/" +:+ a +:+ "/") with ((r +:+ "/" +:+ a) +:+ "/")
    by by rewrite !append_assoc.
  apply rstrip_snoc.
  destruct (endswith (r +:+ "/" +:+ a) "/") eqn:Ee; [|done].
  apply endswith_spec in Ee as [pre Ee].
  assert (no_slash a = true) as Hna by by apply valid_name_no_slash.
  assert (Hb2 : basename (r +:+ "/" +:+ a) = a).
  { replace (r +:+ "/" +:+ a) with ((r +:+ "/") +:+ a) by by rewrite !append_assoc.
    apply basename_app; [done|]. right.
    apply endswith_spec. by exists r. }
  rewrite Ee in Hb2.
  assert (Hb3 : basename (pre +:+ "/") = "").
  { replace (pre +:+ "/") with (pre +:+ "/" +:+ "") by by rewrite append_nil_r.
    unfold basename. by rewrite rpartition_app. }
  rewrite Hb3 in Hb2. by destruct (valid_name_nonempty _ Ha).
Qed.


(** The entry of the root through which a keep path of one or two
    names leads is skipped by the loop. *)
Lemma protected_first (r a : string) (rest : list string) :
  valid_name r = true → Forall (λ c, valid_name c = true) (a :: rest) →
  length rest ≤ 1 →
  protected r (join_slash (a :: rest)) a = true.
Proof.
  intros Hr Hall Hlen. unfold protected.
  assert (Hne : a :: rest ≠ []) by done.
  rewrite (normpath_names _ Hne Hall).
  inversion Hall as [|? ? Ha Hrest]; subst.
  rewrite (join_name r a Hr (valid_name_startswith _ Ha)).
  rewrite (join_name r _ Hr (startswith_join_slash _ Hall)).
  destruct rest as [|b [|c rest]]; [| |cbn in Hlen; lia].
  - cbn [join_slash]. rewrite String.eqb_refl. by rewrite orb_true_r.
  - inversion Hrest as [|? ? Hb _]; subst. cbn [join_slash].
    rewrite (dirname_names r a b Hr Ha Hb), String.eqb_refl. by rewrite !orb_true_r.
Qed.

Lemma pruned_lookup (r keep : string) (m : gmap string node) (k : string) :
  pruned r keep m !! k =
  match m !! k with
  | Some n => if protected r keep k || negb (is_dir n) then Some n else None
  | None => None
  end.
Proof.
  unfold pruned. rewrite map_lookup_filter.
  destruct (m !! k) as [n|]; [|done]. cbn. unfold survives. cbn [fst snd].
  destruct (protected r keep k || negb (is_dir n)) eqn:E.
  - by rewrite option_guard_True.
  - by rewrite option_guard_False.
Qed.

Lemma pruned_idemp (r keep : string) (m : gmap string node) :
  pruned r keep (pruned r keep m) = pruned r keep m.
Proof.
  apply map_eq. intros k. rewrite !pruned_lookup.
  destruct (m !! k) as [n|]; [|done].
  destruct (protected r keep k || negb (is_dir n)) eqn:E; [|done]. by rewrite E.
Qed.

Lemma names_ok_pruned (r keep : string) (m : gmap string node) :
  names_ok m → names_ok (pruned r keep m).
Proof.
  intros Hm k x Hk. rewrite pruned_lookup in Hk.
  destruct (m !! k) as [n|] eqn:Hn; [|done]. by apply (Hm k n).
Qed.

End PlainPathFacts.

(** ** The run of the stamp stage *)

Module ManifestFacts.
Import PyStr PosixPath FS Py Task2 StrFacts TreeFacts ResolveFacts StampFacts PruneFacts NameFacts
  SubFacts MainFacts NormFacts ArchiveDirFacts FrameFacts.

(** The run of the stamp stage on a directory. *)
Lemma create_version_file_run cwd (sd ver : string) (t : node)
    (lg : list (level * message)) (m : gmap string node) :
  listing cwd t sd = Ok m →
  ∃ loc files,
    resolve cwd t sd = Ok loc ∧ get t loc = Some (Dir m) ∧
    files `sublist_of` (map_to_list m).*1 ∧
    create_version_file cwd sd ver (State t lg) =
    match m !! "version.json" with
    | Some (Dir _) =>
        (Ok false, State t (lg ++ [(INFO, VersionStart sd);
                                   (ERROR, VersionError IsADirectoryError)]))
    | _ =>
        (Ok true,
         State (update (loc ++ ["version.json"])
                  (λ _, Some (JsonFile (version_data ver files))) t)
           (lg ++ [(INFO, VersionStart sd);
                   (INFO, VersionDone (version_data ver files))]))
    end.
Proof.
  intros Hl. destruct (listing_inv _ _ _ _ Hl) as (loc & Hr & Hg).
  unfold create_version_file. py_unfold. cbn [fs log].
  unfold listdir. rewrite Hl. cbn [fs log].
  set (files := filter _ _).
  exists loc, files. split_and!; [done..|apply sublist_filter|].
  unfold write_file.
  rewrite (resolve_parent_join_child cwd t sd "version.json" loc m Hr Hg eq_refl).
  rewrite (get_snoc _ _ _ _ Hg).
  destruct (m !! "version.json") as [[| | |?]|]; cbn [fs log];
    by rewrite <- app_assoc.
Qed.


End ManifestFacts.

(** ** The log of the prune stage *)

Module PruneLogFacts.
Import PyStr PosixPath FS Py Task2 StrFacts TreeFacts ResolveFacts StampFacts PruneFacts NameFacts
  SubFacts MainFacts NormFacts ArchiveDirFacts FrameFacts PlainPathFacts.

Section Root.
Context (cwd : list string) (r keep : string).
Hypothesis Hr : valid_name r = true.

Local Abbreviation loc := (cwd ++ [r]).

(** What one turn of the loop logs, by the entries of the root. *)
Local Abbreviation lines := (λ (m : gmap string node) (k : string),
  if protected r keep k then []
  else match m !! k with
       | Some (Dir _) => [(INFO, RemovedDir k)]
       | _ => []
       end).

Lemma clean_item_log (t : node) (lg : list (level * message)) (k : string)
    (m : gmap string node) :
  valid_name k = true → get t loc = Some (Dir m) →
  clean_item cwd r (join r (normpath keep)) k (State t lg)
  = (Ok tt, State (update loc (λ _, Some (Dir (prune_step r keep m k))) t)
              (lg ++ lines m k)).
Proof.
  intros Hk Hm. unfold clean_item, prune_step, protected.
  destruct (_ || _ || _).
  - by rewrite (update_id _ _ _ Hm), app_nil_r.
  - py_unfold. cbn [fs log]. rewrite (isdir_child cwd r Hr t k m Hk Hm).
    destruct (m !! k) as [[| | |sub]|] eqn:E; cbn [is_dir];
      try (by rewrite (update_id _ _ _ Hm), app_nil_r).
    cbn [fs log]. by rewrite (rmtree_child cwd r Hr t k m sub Hk Hm E).
Qed.

Lemma lines_prune_step (m : gmap string node) (k : string) (items : list string) :
  k ∉ items →
  items ≫= lines (prune_step r keep m k) = items ≫= lines m.
Proof.
  induction items as [|j items IH]; [done|]. intros Hk.
  apply not_elem_of_cons in Hk as [Hkj Hk]. cbn [mbind list_bind].
  rewrite (IH Hk). by rewrite prune_step_lookup_ne.
Qed.

Lemma clean_loop_log (items : list string) (t : node)
    (lg : list (level * message)) (m : gmap string node) :
  Forall (λ k, valid_name k = true) items → NoDup items →
  get t loc = Some (Dir m) →
  for_each items (clean_item cwd r (join r (normpath keep))) (State t lg)
  = (Ok tt, State (update loc (λ _, Some (Dir (foldl (prune_step r keep) m items))) t)
              (lg ++ (items ≫= lines m))).
Proof.
  revert t lg m. induction items as [|k items IH]; intros t lg m Hv Hnd Hm.
  - cbn. by rewrite (update_id _ _ _ Hm), app_nil_r.
  - apply Forall_cons in Hv as [Hk Hv]. apply NoDup_cons in Hnd as [Hkn Hnd].
    cbn [for_each foldl]. unfold bind at 1. rewrite (clean_item_log t lg k m Hk Hm).
    set (t1 := update loc _ t).
    assert (Hm1 : get t1 loc = Some (Dir (prune_step r keep m k))).
    { apply get_update_here; [apply snoc_not_nil | by rewrite Hm]. }
    rewrite (IH t1 _ _ Hv Hnd Hm1). unfold t1.
    rewrite update_update_same, (lines_prune_step _ _ _ Hkn).
    cbn [mbind list_bind]. by rewrite <- app_assoc.
Qed.

(** The lines of the loop, as the entries that are gone. *)
Lemma lines_removed (m : gmap string node) (items : list string) :
  Forall (λ k, is_Some (m !! k)) items →
  items ≫= lines m
  = (λ k, (INFO, RemovedDir k))
      <$> filter (λ k, ¬ is_Some (pruned r keep m !! k)) items.
Proof.
  induction 1 as [|k items [n Hn] _ IH]; [done|].
  cbn [mbind list_bind]. rewrite IH, filter_cons, pruned_lookup, Hn.
  destruct (protected r keep k) eqn:Hp; cbn [orb].
  - rewrite decide_False; [done|]. intros H. apply H. eauto.
  - destruct n as [| | |sub]; cbn [is_dir negb].
    1-3: rewrite decide_False; [done|]; intros H; apply H; eauto.
    rewrite decide_True; [done|]. by intros [? ?].
Qed.

Lemma clean_directory_log (t : node) (lg : list (level * message))
    (m : gmap string node) (s' : state) :
  get t loc = Some (Dir m) → names_ok m →
  clean_directory cwd r keep (State t lg) = (Ok true, s') →
  s' = State (update loc (λ _, Some (Dir (pruned r keep m))) t)
         (lg ++ [(INFO, CleanStart keep)]
             ++ ((λ k, (INFO, RemovedDir k))
                   <$> filter (λ k, ¬ is_Some (pruned r keep m !! k))
                         (map_to_list m).*1)
             ++ [(INFO, CleanDone)]).
Proof.
  intros Hm Hok. unfold clean_directory. py_unfold. cbn [fs log].
  destruct (exists_ cwd t (join r (normpath keep))); cbn [negb fs log];
    [|by intros [= ]].
  unfold listdir. rewrite (listing_name _ _ _ _ Hr Hm).
  rewrite (clean_loop_log _ _ _ m); [| |apply NoDup_fst_map_to_list|exact Hm].
  2:{ apply Forall_forall. intros k [n Hn]%elem_of_listdir. by apply (Hok k n). }
  cbn [fs log]. rewrite prune_fold_pruned, lines_removed.
  2:{ apply Forall_forall. by intros k ?%elem_of_listdir. }
  intros [= <-]. by rewrite <- !app_assoc.
Qed.

End Root.

End PruneLogFacts.

(** ** The clone and the working directory *)

Module DriverFacts.
Import PyStr PosixPath FS Py Task2 StrFacts TreeFacts ResolveFacts StampFacts PruneFacts NameFacts
  SubFacts MainFacts NormFacts ArchiveDirFacts FrameFacts ArchiveFacts.






End DriverFacts.

(** ** A run that delivers *)

Module DeliveryFacts.
Import PyStr PosixPath FS Py Task2 StrFacts TreeFacts ResolveFacts StampFacts PruneFacts NameFacts
  SubFacts MainFacts NormFacts ArchiveDirFacts FrameFacts ArchiveFacts PlainPathFacts ManifestFacts DriverFacts.








Section Fresh.
Context (cwd : list string) (git : string → option (gmap string node))
  (now : date) (url ver : string) (front : list string) (c : string).
Context (t0 : node) (lg0 : list (level * message)) (mc tree e : gmap string node).
Hypothesis Hcwd : get t0 cwd = Some (Dir mc).
Hypothesis Hfresh : mc !! "temp_repo" = None.
Hypothesis Hgit : git url = Some tree.
Hypothesis Hok : names_ok tree.
Hypothesis Hfront : Forall (λ x, valid_name x = true) front.
Hypothesis Hc : valid_name c = true.
Hypothesis Hlen : length front ≤ 1.
Hypothesis He : get (Dir tree) (front ++ [c]) = Some (Dir e).
Hypothesis Hy : (0 ≤ year now)%Z.

Local Abbreviation sp := (join_slash (front ++ [c])).
Local Abbreviation zipname := (c +:+ strftime_Ymd now +:+ ".zip").

Hypothesis Hjson : ∀ d, e !! "version.json" ≠ Some (Dir d).
Hypothesis Hbeside : ∀ d, get (Dir tree) (front ++ [zipname]) ≠ Some (Dir d).
Hypothesis Hdest : ∀ d, mc !! zipname ≠ Some (Dir d).


End Fresh.

End DeliveryFacts.

(** ** A run left by an exception *)

Module EscapeFacts.
Import PyStr PosixPath FS Py Task2 StrFacts TreeFacts ResolveFacts StampFacts PruneFacts NameFacts
  SubFacts MainFacts NormFacts ArchiveDirFacts FrameFacts ArchiveFacts DriverFacts.







End EscapeFacts.

Import StrFacts TreeFacts ResolveFacts StampFacts PruneFacts NameFacts SubFacts MainFacts
  NormFacts ArchiveDirFacts FrameFacts ArchiveFacts PlainPathFacts ManifestFacts
  PruneLogFacts DriverFacts DeliveryFacts EscapeFacts.

(** ** The clone stage *)


(** ** The prune stage *)

(** X2.  What a successful prune pass leaves of the root: an entry
    stays, as it was, when the loop skips it or when it is not a
    directory; every other entry is gone.  Nothing is added. *)
Theorem prune_removes_unprotected_directories cwd (r keep : string)
    (t : node) (lg : list (level * message)) (m : gmap string node) (s' : state) :
  valid_name r = true →
  get t (cwd ++ [r]) = Some (Dir m) →
  names_ok m →
  clean_directory cwd r keep (State t lg) = (Ok true, s') →
  ∀ k, get (fs s') (cwd ++ [r; k]) =
       match m !! k with
       | Some n =>
           if String.eqb k ".git"
              || String.eqb (join r k) (join r (normpath keep))
              || String.eqb (join r k) (dirname (join r (normpath keep)))
              || negb (is_dir n)
           then Some n else None
       | None => None
       end.
Proof.
  intros Hr Hm Hok Hrun k.
  pose proof (clean_directory_spec cwd r keep Hr t lg m Hm Hok) as Hspec.
  destruct (exists_ cwd t (join r (normpath keep))).
  2:{ rewrite Hrun in Hspec. by simplify_eq. }
  destruct Hspec as (added & _ & _ & Hspec). rewrite Hrun in Hspec.
  injection Hspec as ->. cbn [fs].
  replace (cwd ++ [r; k]) with ((cwd ++ [r]) ++ [k]) by by rewrite <- app_assoc.
  erewrite get_snoc.
  2:{ apply get_update_here; [apply snoc_not_nil|eauto]. }
  by rewrite pruned_lookup.
Qed.

Lemma prune_removes_unprotected_directories_witness :
  valid_name "temp_repo" = true ∧
  get (fs Sample.cloned) (Sample.cwd ++ ["temp_repo"]) = Some (Dir Sample.repo) ∧
  names_ok Sample.repo ∧
  clean_directory Sample.cwd "temp_repo" "src/app"
    (State (fs Sample.cloned) (log Sample.cloned))
  = (Ok true, snd Cases.pruned_src_app) ∧
  ∀ k, get (fs (snd Cases.pruned_src_app)) (Sample.cwd ++ ["temp_repo"; k]) =
       match Sample.repo !! k with
       | Some n =>
           if String.eqb k ".git"
              || String.eqb (join "temp_repo" k) (join "temp_repo" (normpath "src/app"))
              || String.eqb (join "temp_repo" k)
                   (dirname (join "temp_repo" (normpath "src/app")))
              || negb (is_dir n)
           then Some n else None
       | None => None
       end.
Proof.
  assert (H1 : valid_name "temp_repo" = true) by reflexivity.
  assert (H2 : get (fs Sample.cloned) (Sample.cwd ++ ["temp_repo"])
               = Some (Dir Sample.repo)) by (vm_compute; reflexivity).
  assert (H3 : names_ok Sample.repo) by (unfold Sample.repo; names_ok_tac).
  assert (H4 : clean_directory Sample.cwd "temp_repo" "src/app"
                 (State (fs Sample.cloned) (log Sample.cloned))
               = (Ok true, snd Cases.pruned_src_app)) by (vm_compute; reflexivity).
  exact (conj H1 (conj H2 (conj H3 (conj H4
           (prune_removes_unprotected_directories _ _ _ _ _ _ _ H1 H2 H3 H4))))).
Defined.

(** X3.  A path to keep of one or two plain names that exists below
    the root is still there after the prune pass, with what it held:
    the pass succeeds and leaves the entry of the root through which
    the path leads. *)
Theorem shallow_keep_path_survives cwd (r : string) (comps : list string)
    (t : node) (lg : list (level * message)) (m : gmap string node) (x : node) :
  valid_name r = true →
  Forall (λ c, valid_name c = true) comps →
  1 ≤ length comps ≤ 2 →
  get t (cwd ++ [r]) = Some (Dir m) →
  names_ok m →
  get (Dir m) comps = Some x →
  ∃ s', clean_directory cwd r (join_slash comps) (State t lg) = (Ok true, s')
        ∧ get (fs s') (cwd ++ r :: comps) = Some x
        ∧ stat cwd (fs s') (join r (join_slash comps)) = Ok x.
Proof.
  intros Hr Hall Hlen Hm Hok Hx.
  destruct comps as [|a rest]; [cbn in Hlen; lia|].
  assert (Hne : a :: rest ≠ []) by done.
  assert (Hall' : Forall (λ c, valid_name c = true) (r :: a :: rest))
    by by constructor.
  assert (Hjoin : join r (join_slash (a :: rest)) = join_slash (r :: a :: rest)).
  { rewrite (join_name r _ Hr (startswith_join_slash _ Hall)).
    by rewrite (join_slash_cons r (a :: rest)). }
  assert (Hget : ∀ t', get t' (cwd ++ [r]) = Some (Dir m) →
                       get t' (cwd ++ r :: a :: rest) = Some x).
  { intros t' Ht'. replace (cwd ++ r :: a :: rest) with ((cwd ++ [r]) ++ a :: rest)
      by by rewrite <- app_assoc.
    by rewrite get_app, Ht'. }
  pose proof (clean_directory_spec cwd r (join_slash (a :: rest)) Hr t lg m Hm Hok)
    as Hspec.
  rewrite (normpath_names _ Hne Hall), Hjoin in Hspec.
  assert (Hne' : r :: a :: rest ≠ []) by done.
  destruct (stat_names cwd t x (r :: a :: rest) Hne' Hall' (Hget t Hm))
    as [_ Hst].
  unfold exists_ in Hspec. rewrite Hst in Hspec. cbn [is_ok] in Hspec.
  destruct Hspec as (added & _ & _ & ->). eexists. split; [done|]. cbn [fs].
  set (t' := update _ _ t).
  assert (Hg' : get t' (cwd ++ r :: a :: rest) = Some x).
  { replace (cwd ++ r :: a :: rest) with ((cwd ++ [r]) ++ a :: rest)
      by by rewrite <- app_assoc.
    rewrite get_app. unfold t'.
    rewrite get_update_here; [|apply snoc_not_nil|eauto].
    cbn [mbind option_bind]. cbn [get] in Hx |- *.
    rewrite pruned_lookup.
    destruct (m !! a) as [n|]; [|done].
    rewrite (protected_first r a rest Hr Hall); [done|]. cbn in Hlen. lia. }
  split; [done|]. rewrite Hjoin.
  by destruct (stat_names cwd t' x (r :: a :: rest) Hne' Hall' Hg').
Qed.

Lemma shallow_keep_path_survives_witness :
  valid_name "temp_repo" = true ∧
  Forall (λ c, valid_name c = true) ["src"; "app"] ∧
  1 ≤ length ["src"; "app"] ≤ 2 ∧
  get (fs Sample.cloned) (Sample.cwd ++ ["temp_repo"]) = Some (Dir Sample.repo) ∧
  names_ok Sample.repo ∧
  get (Dir Sample.repo) ["src"; "app"] = Some (Dir Cases.src_app_entries) ∧
  ∃ s', clean_directory Sample.cwd "temp_repo" (join_slash ["src"; "app"])
          (State (fs Sample.cloned) (log Sample.cloned)) = (Ok true, s')
        ∧ get (fs s') (Sample.cwd ++ "temp_repo" :: ["src"; "app"])
          = Some (Dir Cases.src_app_entries)
        ∧ stat Sample.cwd (fs s') (join "temp_repo" (join_slash ["src"; "app"]))
          = Ok (Dir Cases.src_app_entries).
Proof.
  assert (H1 : valid_name "temp_repo" = true) by reflexivity.
  assert (H2 : Forall (λ c, valid_name c = true) ["src"; "app"])
    by (by repeat constructor).
  assert (H3 : 1 ≤ length ["src"; "app"] ≤ 2) by (cbn; lia).
  assert (H4 : get (fs Sample.cloned) (Sample.cwd ++ ["temp_repo"])
               = Some (Dir Sample.repo)) by (vm_compute; reflexivity).
  assert (H5 : names_ok Sample.repo) by (unfold Sample.repo; names_ok_tac).
  assert (H6 : get (Dir Sample.repo) ["src"; "app"] = Some (Dir Cases.src_app_entries))
    by (vm_compute; reflexivity).
  exact (conj H1 (conj H2 (conj H3 (conj H4 (conj H5 (conj H6
           (shallow_keep_path_survives Sample.cwd "temp_repo" ["src"; "app"]
              (fs Sample.cloned) (log Sample.cloned) Sample.repo
              (Dir Cases.src_app_entries) H1 H2 H3 H4 H5 H6))))))).
Defined.

(** X4.  A second prune pass with the same path to keep changes
    nothing, whenever the path is still there after the first. *)
Theorem second_prune_pass_is_identity cwd (r keep : string)
    (t : node) (lg : list (level * message)) (m : gmap string node) (s1 : state) :
  valid_name r = true →
  get t (cwd ++ [r]) = Some (Dir m) →
  names_ok m →
  clean_directory cwd r keep (State t lg) = (Ok true, s1) →
  exists_ cwd (fs s1) (join r (normpath keep)) = true →
  ∃ lg2, clean_directory cwd r keep s1 = (Ok true, State (fs s1) lg2).
Proof.
  intros Hr Hm Hok Hrun Hstill.
  pose proof (clean_directory_spec cwd r keep Hr t lg m Hm Hok) as Hspec.
  destruct (exists_ cwd t (join r (normpath keep))).
  2:{ rewrite Hrun in Hspec. by simplify_eq. }
  destruct Hspec as (added & _ & _ & Hspec). rewrite Hrun in Hspec.
  injection Hspec as ->. cbn [fs] in *.
  set (t1 := update (cwd ++ [r]) (λ _, Some (Dir (pruned r keep m))) t) in *.
  assert (Hm1 : get t1 (cwd ++ [r]) = Some (Dir (pruned r keep m))).
  { apply get_update_here; [apply snoc_not_nil|eauto]. }
  pose proof (clean_directory_spec cwd r keep Hr t1 (lg ++ added) _ Hm1
                (names_ok_pruned _ _ _ Hok)) as Hspec.
  rewrite Hstill in Hspec. destruct Hspec as (added2 & _ & _ & ->).
  eexists. f_equal. f_equal. unfold t1.
  by rewrite update_update_same, pruned_idemp.
Qed.

Lemma second_prune_pass_is_identity_witness :
  valid_name "temp_repo" = true ∧
  get (fs Sample.cloned) (Sample.cwd ++ ["temp_repo"]) = Some (Dir Sample.repo) ∧
  names_ok Sample.repo ∧
  clean_directory Sample.cwd "temp_repo" "src/app"
    (State (fs Sample.cloned) (log Sample.cloned))
  = (Ok true, snd Cases.pruned_src_app) ∧
  exists_ Sample.cwd (fs (snd Cases.pruned_src_app))
    (join "temp_repo" (normpath "src/app")) = true ∧
  ∃ lg2, clean_directory Sample.cwd "temp_repo" "src/app" (snd Cases.pruned_src_app)
         = (Ok true, State (fs (snd Cases.pruned_src_app)) lg2).
Proof.
  assert (H1 : valid_name "temp_repo" = true) by reflexivity.
  assert (H2 : get (fs Sample.cloned) (Sample.cwd ++ ["temp_repo"])
               = Some (Dir Sample.repo)) by (vm_compute; reflexivity).
  assert (H3 : names_ok Sample.repo) by (unfold Sample.repo; names_ok_tac).
  assert (H4 : clean_directory Sample.cwd "temp_repo" "src/app"
                 (State (fs Sample.cloned) (log Sample.cloned))
               = (Ok true, snd Cases.pruned_src_app)) by (vm_compute; reflexivity).
  assert (H5 : exists_ Sample.cwd (fs (snd Cases.pruned_src_app))
                 (join "temp_repo" (normpath "src/app")) = true)
    by (vm_compute; reflexivity).
  exact (conj H1 (conj H2 (conj H3 (conj H4 (conj H5
           (second_prune_pass_is_identity _ _ _ _ _ _ _ H1 H2 H3 H4 H5)))))).
Defined.

(** X5.  The prune pass, whether it succeeds or not, changes nothing
    outside the root it is given. *)
Theorem prune_touches_only_its_root cwd (r keep : string)
    (t : node) (lg : list (level * message)) (m : gmap string node)
    (b : res bool) (s' : state) (L : list string) :
  valid_name r = true →
  get t (cwd ++ [r]) = Some (Dir m) →
  names_ok m →
  clean_directory cwd r keep (State t lg) = (b, s') →
  ¬ (cwd ++ [r]) `prefix_of` L → ¬ L `prefix_of` (cwd ++ [r]) →
  get (fs s') L = get t L.
Proof.
  intros Hr Hm Hok Hrun H1 H2.
  pose proof (clean_directory_spec cwd r keep Hr t lg m Hm Hok) as Hspec.
  destruct (exists_ cwd t (join r (normpath keep))).
  2:{ rewrite Hrun in Hspec. by simplify_eq. }
  destruct Hspec as (added & _ & _ & Hspec). rewrite Hrun in Hspec.
  simplify_eq. cbn [fs]. by apply get_update_frame.
Qed.

Lemma prune_touches_only_its_root_witness :
  valid_name "temp_repo" = true ∧
  get (fs Sample.cloned) (Sample.cwd ++ ["temp_repo"]) = Some (Dir Sample.repo) ∧
  names_ok Sample.repo ∧
  clean_directory Sample.cwd "temp_repo" "src/app"
    (State (fs Sample.cloned) (log Sample.cloned))
  = (fst Cases.pruned_src_app, snd Cases.pruned_src_app) ∧
  ¬ (Sample.cwd ++ ["temp_repo"]) `prefix_of` ["home"; "notes.txt"] ∧
  ¬ ["home"; "notes.txt"] `prefix_of` (Sample.cwd ++ ["temp_repo"]) ∧
  get (fs (snd Cases.pruned_src_app)) ["home"; "notes.txt"]
  = get (fs Sample.cloned) ["home"; "notes.txt"].
Proof.
  assert (H1 : valid_name "temp_repo" = true) by reflexivity.
  assert (H2 : get (fs Sample.cloned) (Sample.cwd ++ ["temp_repo"])
               = Some (Dir Sample.repo)) by (vm_compute; reflexivity).
  assert (H3 : names_ok Sample.repo) by (unfold Sample.repo; names_ok_tac).
  assert (H4 : clean_directory Sample.cwd "temp_repo" "src/app"
                 (State (fs Sample.cloned) (log Sample.cloned))
               = (fst Cases.pruned_src_app, snd Cases.pruned_src_app))
    by (vm_compute; reflexivity).
  assert (H5 : ¬ (Sample.cwd ++ ["temp_repo"]) `prefix_of` ["home"; "notes.txt"])
    by (intros [k Hk]; cbn in Hk; discriminate Hk).
  assert (H6 : ¬ ["home"; "notes.txt"] `prefix_of` (Sample.cwd ++ ["temp_repo"]))
    by (intros [k Hk]; cbn in Hk; discriminate Hk).
  exact (conj H1 (conj H2 (conj H3 (conj H4 (conj H5 (conj H6
           (prune_touches_only_its_root _ _ _ _ _ _ _ _ _ H1 H2 H3 H4 H5 H6))))))).
Defined.

(** X6.  The log of a successful prune pass: the opening line, then
    one line for each entry of the root that is gone afterwards, in
    the order of the listing, then the closing line. *)
Theorem prune_logs_each_removed_directory cwd (r keep : string)
    (t : node) (lg : list (level * message)) (m : gmap string node) (s' : state) :
  valid_name r = true →
  get t (cwd ++ [r]) = Some (Dir m) →
  names_ok m →
  clean_directory cwd r keep (State t lg) = (Ok true, s') →
  log s' = lg ++ [(INFO, CleanStart keep)]
              ++ ((λ k, (INFO, RemovedDir k))
                    <$> filter (λ k, ¬ is_Some (get (fs s') (cwd ++ [r; k])))
                          (map_to_list m).*1)
              ++ [(INFO, CleanDone)].
Proof.
  intros Hr Hm Hok Hrun.
  rewrite (clean_directory_log cwd r keep Hr t lg m s' Hm Hok Hrun). cbn [fs log].
  assert (E : filter (λ k, ¬ is_Some (pruned r keep m !! k)) (map_to_list m).*1
              = filter (λ k, ¬ is_Some
                               (get (update (cwd ++ [r])
                                       (λ _, Some (Dir (pruned r keep m))) t)
                                  (cwd ++ [r; k])))
                  (map_to_list m).*1).
  { apply list_filter_iff. intros k.
    replace (cwd ++ [r; k]) with ((cwd ++ [r]) ++ [k]) by by rewrite <- app_assoc.
    erewrite get_snoc; [done|].
    apply get_update_here; [apply snoc_not_nil|eauto]. }
  by rewrite E.
Qed.

Lemma prune_logs_each_removed_directory_witness :
  valid_name "temp_repo" = true ∧
  get (fs Sample.cloned) (Sample.cwd ++ ["temp_repo"]) = Some (Dir Sample.repo) ∧
  names_ok Sample.repo ∧
  clean_directory Sample.cwd "temp_repo" "src/app"
    (State (fs Sample.cloned) (log Sample.cloned))
  = (Ok true, snd Cases.pruned_src_app) ∧
  log (snd Cases.pruned_src_app)
  = log Sample.cloned ++ [(INFO, CleanStart "src/app")]
      ++ ((λ k, (INFO, RemovedDir k))
            <$> filter (λ k, ¬ is_Some (get (fs (snd Cases.pruned_src_app))
                                          (Sample.cwd ++ ["temp_repo"; k])))
                  (map_to_list Sample.repo).*1)
      ++ [(INFO, CleanDone)].
Proof.
  assert (H1 : valid_name "temp_repo" = true) by reflexivity.
  assert (H2 : get (fs Sample.cloned) (Sample.cwd ++ ["temp_repo"])
               = Some (Dir Sample.repo)) by (vm_compute; reflexivity).
  assert (H3 : names_ok Sample.repo) by (unfold Sample.repo; names_ok_tac).
  assert (H4 : clean_directory Sample.cwd "temp_repo" "src/app"
                 (State (fs Sample.cloned) (log Sample.cloned))
               = (Ok true, snd Cases.pruned_src_app)) by (vm_compute; reflexivity).
  exact (conj H1 (conj H2 (conj H3 (conj H4
           (prune_logs_each_removed_directory _ _ _ _ _ _ _ H1 H2 H3 H4))))).
Defined.

(** ** The stamp stage *)



(** X8.  The stamp stage never raises.  It fails exactly when the
    path it is given is not a directory that can be listed, or when
    that directory has a directory named [version.json]; it has then
    changed nothing. *)
Theorem stamp_fails_without_writing cwd (sd ver : string) (s : state) :
  ∃ (b : bool) (s' : state),
    create_version_file cwd sd ver s = (Ok b, s')
    ∧ (b = false → fs s' = fs s)
    ∧ (b = true ↔ ∃ m, listing cwd (fs s) sd = Ok m
                       ∧ ∀ d, m !! "version.json" ≠ Some (Dir d)).
Proof.
  destruct s as [t lg]. cbn [fs].
  destruct (listing cwd t sd) as [m|e] eqn:Hl.
  - destruct (create_version_file_run cwd sd ver t lg m Hl)
      as (loc & files & Hr & Hg & _ & Hrun). rewrite Hrun.
    destruct (m !! "version.json") as [n|] eqn:E.
    + destruct (is_dir n) eqn:Hn.
      * destruct n as [| | |d]; try done.
        exists false. eexists. split; [done|]. split; [done|]. split; [done|].
        intros (m' & [= <-] & Hnd). by destruct (Hnd d).
      * exists true. eexists. split; [by destruct n|]. split; [done|].
        split; [|done]. intros _. exists m. split; [done|].
        intros d Hd. simplify_eq.
    + exists true. eexists. split; [done|]. split; [done|].
      split; [|done]. intros _. exists m. split; [done|].
      intros d Hd. by rewrite E in Hd.
  - assert (Hld : listdir cwd t sd = Err e) by (unfold listdir; by rewrite Hl).
    rewrite (create_version_file_listdir_err _ _ _ _ _ _ Hld).
    exists false. eexists. split; [done|]. split; [done|]. split; [done|].
    by intros (m & [= ] & _).
Qed.



(** ** The package stage *)






(** ** The driver *)

(** X13.  A [temp_repo] directory left by an earlier run has no
    influence on a run: [main] behaves as it does when started
    without it. *)
Theorem stale_directory_is_discarded cwd git now (url sp ver : string)
    (t0 : node) (lg0 : list (level * message)) (mc stale : gmap string node) :
  get t0 cwd = Some (Dir mc) →
  mc !! "temp_repo" = Some (Dir stale) →
  main cwd git now url sp ver (State t0 lg0)
  = main cwd git now url sp ver
      (State (update (cwd ++ ["temp_repo"]) (λ _, None) t0) lg0).
Proof. intros Hcwd Hm. by apply (main_removes_stale _ _ _ _ _ _ _ _ mc Hcwd stale). Qed.

Lemma stale_directory_is_discarded_witness :
  get Cases.leftover_disk Sample.cwd = Some (Dir Cases.leftover_entries) ∧
  Cases.leftover_entries !! "temp_repo" = Some (Dir Cases.leftover) ∧
  main Sample.cwd Sample.git Sample.today Sample.url "app" "1.0"
    (State Cases.leftover_disk [])
  = main Sample.cwd Sample.git Sample.today Sample.url "app" "1.0"
      (State (update (Sample.cwd ++ ["temp_repo"]) (λ _, None) Cases.leftover_disk) []).
Proof.
  assert (H1 : get Cases.leftover_disk Sample.cwd = Some (Dir Cases.leftover_entries))
    by (vm_compute; reflexivity).
  assert (H2 : Cases.leftover_entries !! "temp_repo" = Some (Dir Cases.leftover))
    by (vm_compute; reflexivity).
  exact (conj H1 (conj H2
           (stale_directory_is_discarded Sample.cwd Sample.git Sample.today Sample.url
              "app" "1.0" Cases.leftover_disk [] Cases.leftover_entries Cases.leftover
              H1 H2))).
Defined.

(** X14.  When [temp_repo] is there and is not a directory, [main] is
    left by the exception of [shutil.rmtree] before anything is logged
    or changed: nothing is cloned. *)
Theorem stale_file_aborts_run cwd git now (url sp ver : string)
    (t0 : node) (lg0 : list (level * message)) (mc : gmap string node) (n : node) :
  get t0 cwd = Some (Dir mc) →
  mc !! "temp_repo" = Some n →
  is_dir n = false →
  main cwd git now url sp ver (State t0 lg0) = (Err NotADirectoryError, State t0 lg0).
Proof.
  intros Hcwd Hn Hfile.
  assert (Ht : get t0 (cwd ++ ["temp_repo"]) = Some n)
    by by rewrite (get_snoc _ _ _ _ Hcwd).
  unfold main. py_unfold. cbn [fs log].
  rewrite (exists_name cwd t0 "temp_repo" mc eq_refl Hcwd), Hn.
  rewrite bool_decide_eq_true_2 by eauto. cbn [fs log].
  by rewrite (rmtree_name_file cwd t0 n "temp_repo" eq_refl Ht Hfile).
Qed.

Lemma stale_file_aborts_run_witness :
  get Cases.blocked_disk Sample.cwd = Some (Dir Cases.blocked_entries) ∧
  Cases.blocked_entries !! "temp_repo" = Some (File "junk") ∧
  is_dir (File "junk") = false ∧
  main Sample.cwd Sample.git Sample.today Sample.url "app" "1.0"
    (State Cases.blocked_disk [])
  = (Err NotADirectoryError, State Cases.blocked_disk []).
Proof.
  assert (H1 : get Cases.blocked_disk Sample.cwd = Some (Dir Cases.blocked_entries))
    by (vm_compute; reflexivity).
  assert (H2 : Cases.blocked_entries !! "temp_repo" = Some (File "junk"))
    by (vm_compute; reflexivity).
  assert (H3 : is_dir (File "junk") = false) by reflexivity.
  exact (conj H1 (conj H2 (conj H3
           (stale_file_aborts_run Sample.cwd Sample.git Sample.today Sample.url
              "app" "1.0" Cases.blocked_disk [] Cases.blocked_entries (File "junk")
              H1 H2 H3)))).
Defined.









